(** * go-vies: a client for the VIES VAT-validation service

    A shallow embedding of the package [vies] (files [vies.go] and the
    domain-model file declaring [CheckResult], [Status], [Availability] and
    the wire records), followed by the properties of its data model and of
    its three operations [Status], [Check] and [Valid].

    Conventions of the embedding.
    - A Go [string] and a Go [[]byte] are both sequences of bytes: they are
      Rocq [string]s, whose elements ([ascii]) are 8-bit values.  [len] is
      [String.length] and [s[i:j]] is [substring].
    - A Go [error] is an interface value that may be [nil]: it is an
      [option GoError], [None] being [nil].  A function returning
      [(T, error)] returns a pair; a pointer result that may be [nil] is an
      [option].
    - Library calls whose contract is "a value or an error" return a
      [result].
    - A call mutating the target of a pointer ([json.Unmarshal(data, &v)])
      takes the old value and returns the new one.
    - The only effect is the HTTP round trip: computations run in a writer
      monad [Net] that records every request handed to the transport. *)

From Stdlib Require Import String Ascii List Bool Arith ZArith Lia.
Import ListNotations.
Local Open Scope string_scope.
Local Open Scope list_scope.

Set Implicit Arguments.

(* ================================================================== *)
(** ** Errors *)

(** [type ValidationError struct { Err string; Message string }] *)
Module ValidationError.
Record t := mk { Err : string; Message : string }.

(** [func (e *ValidationError) Error() string]:
    [fmt.Sprintf("%v: %v", e.Err, e.Message)]. *)
Definition Error (e : t) : string := Err e ++ ": " ++ Message e.
End ValidationError.

(** Errors of [encoding/json], kept by kind. *)
Inductive jsonErr :=
| SyntaxError (msg : string)
| UnmarshalTypeError (msg : string)
| UnsupportedTypeError (msg : string).

(** The dynamic values an [error] of this package can hold. *)
Inductive GoError :=
| errorString (msg : string)           (* errors.New, fmt.Errorf without %w *)
| ValidationErr (e : ValidationError.t) (* *ValidationError *)
| JSONError (e : jsonErr)              (* from encoding/json *)
| URLError (msg : string)              (* *url.Error *)
| HTTPError (msg : string).            (* net/http, io: transport failures *)

Definition error := option GoError.

Definition jsonErr_msg (e : jsonErr) : string :=
  match e with
  | SyntaxError m | UnmarshalTypeError m | UnsupportedTypeError m => m
  end.

(** [err.Error()] *)
Definition Error (e : GoError) : string :=
  match e with
  | errorString m => m
  | ValidationErr v => ValidationError.Error v
  | JSONError j => jsonErr_msg j
  | URLError m => m
  | HTTPError m => m
  end.

(** [errors.As(err, &vErr)] with [vErr *ValidationError]. *)
Definition isValidationError (e : GoError) : bool :=
  match e with ValidationErr _ => true | _ => false end.

Inductive result (A : Type) :=
| ok (a : A)
| failed (e : GoError).
Arguments failed {A} e.

(* ================================================================== *)
(** ** Strings as byte sequences *)

Definition byte_in (lo hi : nat) (c : ascii) : bool :=
  ((lo <=? nat_of_ascii c)%nat && (nat_of_ascii c <=? hi)%nat)%bool.

Fixpoint forallb_string (p : ascii -> bool) (s : string) : bool :=
  match s with
  | EmptyString => true
  | String c s' => p c && forallb_string p s'
  end.

Fixpoint existsb_string (p : ascii -> bool) (s : string) : bool :=
  match s with
  | EmptyString => false
  | String c s' => p c || existsb_string p s'
  end.

Fixpoint map_string (f : ascii -> ascii) (s : string) : string :=
  match s with
  | EmptyString => EmptyString
  | String c s' => String (f c) (map_string f s')
  end.

(** [s[i:j]] for [i <= j <= len(s)], and [s[i:]]. *)
Definition slice (s : string) (i j : nat) : string := substring i (j - i) s.
Definition slice_from (s : string) (i : nat) : string :=
  substring i (String.length s - i) s.

(** [c < utf8.RuneSelf] *)
Definition isASCIIbyte (c : ascii) : bool := (nat_of_ascii c <? 128)%nat.
Definition isASCII (s : string) : bool := forallb_string isASCIIbyte s.

Definition isUpperByte : ascii -> bool := byte_in 65 90.   (* 'A' <= c <= 'Z' *)
Definition isLowerByte : ascii -> bool := byte_in 97 122.  (* 'a' <= c <= 'z' *)

(** [c += 'a' - 'A'] and [c -= 'a' - 'A'] on the letters, other bytes kept. *)
Definition lowerByte (c : ascii) : ascii :=
  if isUpperByte c then ascii_of_nat (nat_of_ascii c + 32) else c.
Definition upperByte (c : ascii) : ascii :=
  if isLowerByte c then ascii_of_nat (nat_of_ascii c - 32) else c.

Definition dquote : ascii := ascii_of_nat 34.     (* the double quote *)
Definition backslash : ascii := ascii_of_nat 92.

(** Bytes that every quoting function of the library used here copies
    through: printable ASCII except the double quote, the backslash and the
    three characters [encoding/json] escapes for HTML. *)
Definition plainByte (c : ascii) : bool :=
  byte_in 32 126 c
  && negb (Ascii.eqb c dquote) && negb (Ascii.eqb c backslash)
  && negb (Ascii.eqb c "<") && negb (Ascii.eqb c ">") && negb (Ascii.eqb c "&").
Definition plain (s : string) : bool := forallb_string plainByte s.

Definition quoted (s : string) : string := String dquote (s ++ String dquote EmptyString).

(** Reads plain bytes up to a closing double quote that ends the input. *)
Fixpoint plainUntilQuote (s : string) : option string :=
  match s with
  | EmptyString => None
  | String c rest =>
      if Ascii.eqb c dquote then
        match rest with EmptyString => Some EmptyString | _ => None end
      else if plainByte c then option_map (String c) (plainUntilQuote rest)
      else None
  end.

Definition unquoted (data : string) : option string :=
  match data with
  | String c rest => if Ascii.eqb c dquote then plainUntilQuote rest else None
  | EmptyString => None
  end.

(* ================================================================== *)
(** ** Data model *)

(** [type CheckResult struct] *)
Module CheckResult.
Record t := mk {
  CountryCode : string;
  VatNumber : string;
  Vat : string;
  Valid : bool;
  Name : string
}.
(** [var status CheckResult] *)
Definition zero : t := mk EmptyString EmptyString EmptyString false EmptyString.
(** [status.Vat = v] *)
Definition set_Vat (r : t) (v : string) : t :=
  mk (CountryCode r) (VatNumber r) v (Valid r) (Name r).
End CheckResult.

(** [type Availability string] with its three constants. *)
Definition Availability := string.
Definition AvailabilityAvailable : Availability := "available".
Definition AvailabilityUnavailable : Availability := "unavailable".
Definition AvailabilityMonitoringDisabled : Availability := "monitoring disabled".

(** [type StatusVow struct] *)
Module StatusVow.
Record t := mk { Available : bool }.
End StatusVow.

(** [type CountryStatus struct] *)
Module CountryStatus.
Record t := mk { CountryCode : string; Availability : Availability }.
End CountryStatus.

(** [type Status struct] *)
Module Status.
Record t := mk { Vow : StatusVow.t; Countries : list CountryStatus.t }.
Definition zero : t := mk (StatusVow.mk false) [].
End Status.

(** [type statusErrorWrapper struct] *)
Module statusErrorWrapper.
Record t := mk { Error : string; Message : string }.
End statusErrorWrapper.

(** [type statusErrorResponse struct] *)
Module statusErrorResponse.
Record t := mk { ActionSucceed : bool; ErrorWrappers : list statusErrorWrapper.t }.
(** [var e statusErrorResponse] *)
Definition zero : t := mk false [].
End statusErrorResponse.

(** [type checkRequest struct] *)
Module checkRequest.
Record t := mk { CountryCode : string; VatNumber : string }.
End checkRequest.

(* ================================================================== *)
(** ** The transport and the library around the package *)

(** [context.Context]: an opaque handle passed through to the request. *)
Inductive Context := Background | WithCancel (id : nat).

(** [url.URL], with the fields that matter to this package. *)
Module URL.
Record t := mk {
  Scheme : string;
  Opaque : string;
  Host : string;
  Path : string;
  RawQuery : string;
  Fragment : string
}.
(** [func (u *URL) IsAbs() bool]: [u.Scheme != ""]. *)
Definition IsAbs (u : t) : bool := negb (String.eqb (Scheme u) EmptyString).
End URL.

(** [http.Request] as [doJSON] builds it. *)
Module Request.
Record t := mk {
  Ctx : Context;
  Method : string;
  Url : string;
  Header : list (string * string);
  Body : option string
}.
(** [req.Header.Set(key, value)] *)
Definition Header_Set (r : t) (key value : string) : t :=
  mk (Ctx r) (Method r) (Url r)
     ((key, value) :: filter (fun kv => negb (String.eqb (fst kv) key)) (Header r))
     (Body r).
End Request.

(** [http.Response]: the status code, and what [io.ReadAll(rsp.Body)]
    yields, the whole body or a read failure. *)
Module Response.
Record t := mk { StatusCode : Z; Body : result string }.
End Response.

(** [http.Client]: [Do] answers a request or fails; cancellation and
    expiry of the request's context are failures of [Do]. *)
Module Client.
Record t := mk { Do : Request.t -> result Response.t }.
End Client.

(** What the package takes from the Go standard library and this
    development leaves open.  The models below fix the library's behaviour
    where the package's own logic depends on it and delegate the rest to
    these fields. *)
Class Runtime := {
  (** [strings.Map(unicode.ToLower, s)] and [strings.Map(unicode.ToUpper, s)],
      for strings with a byte outside ASCII *)
  unicode_ToLower : string -> string;
  unicode_ToUpper : string -> string;
  (** [strconv.Quote(s)] for strings that need escapes *)
  strconv_Quote_escaped : string -> string;
  (** [json.Marshal(s)] for strings that need escapes *)
  json_Marshal_escaped : string -> string;
  (** [json.Unmarshal(data, &value)], [value string], on input other than a
      string literal of plain bytes *)
  json_Unmarshal_string_other : string -> string -> string * option jsonErr;
  json_decode_statusErrorResponse :
    string -> statusErrorResponse.t -> statusErrorResponse.t * option jsonErr;
  json_decode_CheckResult :
    string -> CheckResult.t -> CheckResult.t * option jsonErr;
  (** decoding a [Status] calls the decoder of [Availability] on each
      country's [availability] value *)
  json_decode_Status :
    (Availability -> string -> Availability * error) ->
    string -> Status.t -> Status.t * error;
  json_encode_checkRequest : checkRequest.t -> string + jsonErr;
  (** [url.Parse] on input other than a bare word of ASCII letters *)
  url_Parse_other : string -> URL.t + string;
  URL_JoinPath : URL.t -> string -> URL.t;
  URL_String : URL.t -> string;
  (** why [http.NewRequestWithContext] refuses its arguments, if it does *)
  http_request_invalid : Context -> string -> string -> option string;
  http_DefaultClient : Client.t
}.

Section Library.
Context {rt : Runtime}.

(** [strings.ToLower]: the ASCII path rewrites the upper-case letters in
    place; any byte [>= utf8.RuneSelf] sends the string to the Unicode
    mapping. *)
Definition strings_ToLower (s : string) : string :=
  if isASCII s then
    if negb (existsb_string isUpperByte s) then s
    else map_string lowerByte s
  else unicode_ToLower s.

(** [strings.ToUpper] *)
Definition strings_ToUpper (s : string) : string :=
  if isASCII s then
    if negb (existsb_string isLowerByte s) then s
    else map_string upperByte s
  else unicode_ToUpper s.

(** [strconv.Quote], which the verb [%q] applies to a string. *)
Definition strconv_Quote (s : string) : string :=
  if plain s then quoted s else strconv_Quote_escaped s.

(** [json.Marshal(s)] for a string [s]; it never fails. *)
Definition json_Marshal_string (s : string) : option string * error :=
  (Some (if plain s then quoted s else json_Marshal_escaped s), None).

(** [json.Unmarshal(data, &value)] for [value string]. *)
Definition json_Unmarshal_string (data : string) (value : string)
  : string * error :=
  match unquoted data with
  | Some s => (s, None)
  | None =>
      let '(v, e) := json_Unmarshal_string_other data value in
      (v, option_map JSONError e)
  end.

Definition json_Unmarshal_statusErrorResponse (data : string)
    (e : statusErrorResponse.t) : statusErrorResponse.t * error :=
  let '(e', err) := json_decode_statusErrorResponse data e in
  (e', option_map JSONError err).

Definition json_Unmarshal_CheckResult (data : string) (r : CheckResult.t)
  : CheckResult.t * error :=
  let '(r', err) := json_decode_CheckResult data r in
  (r', option_map JSONError err).

(** [json.Marshal(reqBody)] for a [*checkRequest]. *)
Definition json_Marshal_checkRequest (r : checkRequest.t) : result string :=
  match json_encode_checkRequest r with
  | inl bytes => ok bytes
  | inr e => failed (JSONError e)
  end.

Definition isLetterByte (c : ascii) : bool := isUpperByte c || isLowerByte c.

(** [url.Parse].  On a non-empty word of ASCII letters the parser finds no
    fragment mark and no control byte, [getScheme] reaches the end without
    a colon and returns the empty scheme, there is no query mark, the rest
    does not start with a slash and its first segment has no colon, there
    is no authority, and [setPath] has nothing to unescape: the result is
    the relative reference whose [Path] is the word, and no error.  Every
    other input is left to the library. *)
Definition url_Parse (rawURL : string) : result URL.t :=
  if negb (String.eqb rawURL EmptyString) && forallb_string isLetterByte rawURL
  then ok (URL.mk EmptyString EmptyString EmptyString rawURL EmptyString EmptyString)
  else match url_Parse_other rawURL with
       | inl u => ok u
       | inr msg => failed (URLError msg)
       end.

(** [http.NewRequestWithContext(ctx, method, url, body)] *)
Definition http_NewRequestWithContext (ctx : Context) (method url : string)
    (body : option string) : result Request.t :=
  match http_request_invalid ctx method url with
  | Some msg => failed (HTTPError msg)
  | None =>
      ok (Request.mk ctx
            (if String.eqb method EmptyString then "GET" else method)
            url [] body)
  end.

(** [io.ReadAll(rsp.Body)] *)
Definition io_ReadAll (rsp : Response.t) : result string := Response.Body rsp.
End Library.

Definition http_MethodGet : string := "GET".
Definition http_MethodPost : string := "POST".
Definition http_StatusOK : Z := 200.

(* ================================================================== *)
(** ** Availability: the text codec *)

Section AvailabilityCodec.
Context {rt : Runtime}.

(** The [case] list shared by both [switch] statements. *)
Definition isAvailabilityConstant (a : Availability) : bool :=
  String.eqb a AvailabilityAvailable
  || String.eqb a AvailabilityUnavailable
  || String.eqb a AvailabilityMonitoringDisabled.

(** [func (a *Availability) UnmarshalJSON(data []byte) error]:
    the receiver's target before the call is [a], the first component of
    the result is its target afterwards. *)
Definition UnmarshalJSON (a : Availability) (data : string)
  : Availability * error :=
  let value := EmptyString in
  match json_Unmarshal_string data value with
  | (_, Some err) => (a, Some err)
  | (value, None) =>
      let value := strings_ToLower value in
      if isAvailabilityConstant value then (value, None)
      else (a, Some (errorString ("invalid availability: " ++ strconv_Quote value)))
  end.

(** [func (a Availability) MarshalJSON() ([]byte, error)] *)
Definition MarshalJSON (a : Availability) : option string * error :=
  if isAvailabilityConstant a then json_Marshal_string a
  else (None, Some (errorString ("invalid availability: " ++ strconv_Quote a))).
End AvailabilityCodec.

(* ================================================================== *)
(** ** The network effect *)

(** A computation that may hand requests to the transport: its value and
    the requests handed over, in order. *)
Definition Net (A : Type) : Type := (A * list Request.t)%type.

Definition ret {A} (a : A) : Net A := (a, []).
Definition bind {A B} (m : Net A) (f : A -> Net B) : Net B :=
  let '(a, sent) := m in
  let '(b, sent') := f a in
  (b, sent ++ sent').
Definition value {A} (m : Net A) : A := fst m.
Definition calls {A} (m : Net A) : list Request.t := snd m.

Notation "x <- m ;; k" := (bind m (fun x => k))
  (at level 61, m at next level, right associativity).
Notation "' p <- m ;; k" := (bind m (fun x => match x with p => k end))
  (at level 61, p pattern, m at next level, right associativity).

(** [v.client.Do(req)] *)
Definition client_Do (c : Client.t) (req : Request.t) : Net (result Response.t) :=
  (Client.Do c req, [req]).

(** What a call does when it can dereference a nil pointer. *)
Inductive outcome (A : Type) :=
| Returns (a : A)
| Panics.
Arguments Panics {A}.

(* ================================================================== *)
(** ** The Validator *)

Definition ViesEndpointUrl : string :=
  "https://ec.europa.eu/taxation_customs/vies/rest-api/".
Definition ViesCheckStatusPath : string := "check-status".
Definition ViesCheckVatPath : string := "check-vat-number".

(** [type Validator struct { endpoint *url.URL; client *http.Client }] *)
Module Validator.
Record t := mk { endpoint : URL.t; client : Client.t }.
End Validator.

Section ValidatorOps.
Context {rt : Runtime}.

(** [func NewValidator(client, endpoint)], returning a [*Validator] and an [error]. *)
Definition NewValidator (client : option Client.t) (endpoint : string)
  : option Validator.t * error :=
  let endpoint :=
    if String.eqb endpoint EmptyString then ViesEndpointUrl else endpoint in
  match url_Parse endpoint with
  | failed err => (None, Some err)
  | ok u =>
      let client :=
        match client with
        | None => http_DefaultClient
        | Some c => c
        end in
      (Some (Validator.mk u client), None)
  end.

(** [func (v *Validator) doError(body *[]byte) error] *)
Definition doError (v : Validator.t) (body : string) : error :=
  let e := statusErrorResponse.zero in
  match json_Unmarshal_statusErrorResponse body e with
  | (_, Some err) => Some err
  | (e, None) =>
      match statusErrorResponse.ErrorWrappers e with
      | err :: _ =>
          Some (ValidationErr
                  (ValidationError.mk (statusErrorWrapper.Error err)
                                      (statusErrorWrapper.Message err)))
      | [] => Some (errorString "invalid response structure")
      end
  end.

(** [func (v *Validator) doJSON(ctx, method, path string, reqBody any, out any) error].
    [marshal] and [unmarshal] are what [json.Marshal] and [json.Unmarshal]
    do at the dynamic types of [reqBody] and [out]; [reqBody == nil] is
    [None]; the result carries the target of [out] after the call.  The
    deferred [rsp.Body.Close()] does not bear on the result. *)
Definition doJSON {Req Out : Type}
    (marshal : Req -> result string)
    (unmarshal : string -> Out -> Out * error)
    (v : Validator.t) (ctx : Context) (method path : string)
    (reqBody : option Req) (out : Out) : Net (Out * error) :=
  match
    match reqBody with
    | Some rb =>
        match marshal rb with
        | failed err => failed err
        | ok reqBytes => ok (Some reqBytes)
        end
    | None => ok None
    end
  with
  | failed err => ret (out, Some err)
  | ok body =>
      match http_NewRequestWithContext ctx method
              (URL_String (URL_JoinPath (Validator.endpoint v) path)) body with
      | failed err => ret (out, Some err)
      | ok req =>
          let req :=
            match reqBody with
            | Some _ => Request.Header_Set req "Content-Type" "application/json"
            | None => req
            end in
          r <- client_Do (Validator.client v) req ;;
          match r with
          | failed err => ret (out, Some err)
          | ok rsp =>
              match io_ReadAll rsp with
              | failed err => ret (out, Some err)
              | ok rspBody =>
                  if Z.eqb (Response.StatusCode rsp) http_StatusOK
                  then ret (unmarshal rspBody out)
                  else ret (out, doError v rspBody)
              end
          end
      end
  end.

(** [json.Marshal] is never applied when [reqBody] is [nil]. *)
Definition json_Marshal_nil (x : Empty_set) : result string :=
  match x with end.

(** [func (v *Validator) Status(ctx)], returning a [*Status] and an [error]. *)
Definition Status (v : Validator.t) (ctx : Context)
  : Net (option Status.t * error) :=
  let status := Status.zero in
  '(status, err) <-
    doJSON json_Marshal_nil (json_decode_Status UnmarshalJSON)
           v ctx http_MethodGet ViesCheckStatusPath None status ;;
  match err with
  | Some err => ret (None, Some err)
  | None => ret (Some status, None)
  end.

(** [func (v *Validator) Check(ctx, vat)], returning a [*CheckResult] and an [error]. *)
Definition Check (v : Validator.t) (ctx : Context) (vat : string)
  : Net (option CheckResult.t * error) :=
  if (String.length vat <? 2)%nat then
    ret (None, Some (errorString ("invalid VAT provided " ++ vat)))
  else
    let status := CheckResult.zero in
    let reqBody :=
      checkRequest.mk (strings_ToUpper (slice vat 0 2)) (slice_from vat 2) in
    '(status, err) <-
      doJSON json_Marshal_checkRequest json_Unmarshal_CheckResult
             v ctx http_MethodPost ViesCheckVatPath (Some reqBody) status ;;
    match err with
    | Some err => ret (None, Some err)
    | None =>
        let status :=
          CheckResult.set_Vat status
            (CheckResult.CountryCode status ++ CheckResult.VatNumber status) in
        ret (Some status, None)
    end.

(** [func (v *Validator) Valid(ctx context.Context, vat string) (bool, error)].
    [result.Valid] dereferences [result]. *)
Definition Valid (v : Validator.t) (ctx : Context) (vat : string)
  : Net (outcome (bool * error)) :=
  '(result, err) <- Check v ctx vat ;;
  match err with
  | Some err => ret (Returns (false, Some err))
  | None =>
      match result with
      | Some result => ret (Returns (CheckResult.Valid result, None))
      | None => ret Panics
      end
  end.
End ValidatorOps.

(* ================================================================== *)
(** ** A stub library and stub transports

    The package's tests run the Validator against canned responses.  The
    instance below answers the library calls on the documents those tests
    use; it serves to run the definitions above on concrete inputs. *)

(** Writes a JSON document with apostrophes standing for double quotes. *)
Definition js (s : string) : string :=
  map_string (fun c => if Ascii.eqb c "'" then dquote else c) s.

Module Stub.
Definition errBody : string :=
  js "{'errorWrappers':[{'error':'err','message':'msg'}]}".
Definition errBodySpaced : string :=
  js "{'errorWrappers': [{'error': 'err', 'message': 'msg'}]}".
Definition twoErrorsBody : string :=
  js "{'errorWrappers':[{'error':'err','message':'msg'},{'error':'e2','message':'m2'}]}".
Definition checkBody : string :=
  js "{'countryCode':'EE','vatNumber':'123','valid':true,'name':'Acme'}".
Definition statusBody : string :=
  js "{'vow': {'available': true},'countries': [{'countryCode': 'EE','availability': 'Available'}]}".
Definition badJSON : jsonErr :=
  SyntaxError "invalid character '!' looking for beginning of value".

Definition decode_statusErrorResponse (data : string) (e : statusErrorResponse.t)
  : statusErrorResponse.t * option jsonErr :=
  if String.eqb data errBody || String.eqb data errBodySpaced then
    (statusErrorResponse.mk (statusErrorResponse.ActionSucceed e)
       [statusErrorWrapper.mk "err" "msg"], None)
  else if String.eqb data twoErrorsBody then
    (statusErrorResponse.mk (statusErrorResponse.ActionSucceed e)
       [statusErrorWrapper.mk "err" "msg"; statusErrorWrapper.mk "e2" "m2"], None)
  else if String.eqb data "{}" then (e, None)
  else (e, Some badJSON).

Definition decode_CheckResult (data : string) (r : CheckResult.t)
  : CheckResult.t * option jsonErr :=
  if String.eqb data checkBody then
    (CheckResult.mk "EE" "123" (CheckResult.Vat r) true "Acme", None)
  else (r, Some badJSON).

Definition decode_Status (dec : Availability -> string -> Availability * error)
    (data : string) (s : Status.t) : Status.t * error :=
  if String.eqb data statusBody then
    match dec EmptyString (quoted "Available") with
    | (a, None) =>
        (Status.mk (StatusVow.mk true) [CountryStatus.mk "EE" a], None)
    | (_, Some err) => (s, Some err)
    end
  else (s, Some (JSONError badJSON)).

Definition decode_string_other (data value : string) : string * option jsonErr :=
  if String.eqb data "null" then (value, None)
  else if String.eqb data "123" then
    (value, Some (UnmarshalTypeError
                    "json: cannot unmarshal number into Go value of type string"))
  else (value, Some badJSON).

Definition encode_checkRequest (r : checkRequest.t) : string + jsonErr :=
  inl (js "{'countryCode':" ++ quoted (checkRequest.CountryCode r)
       ++ js ",'vatNumber':" ++ quoted (checkRequest.VatNumber r) ++ "}")%string.

Definition exampleEndpoint : string := "https://example.com/api/".

Definition parse_other (rawURL : string) : URL.t + string :=
  if String.eqb rawURL exampleEndpoint then
    inl (URL.mk "https" EmptyString "example.com" "/api/" EmptyString EmptyString)
  else if String.eqb rawURL ViesEndpointUrl then
    inl (URL.mk "https" EmptyString "ec.europa.eu"
           "/taxation_customs/vies/rest-api/" EmptyString EmptyString)
  else inr ("parse " ++ quoted rawURL ++ ": invalid URL")%string.

Definition joinPath (u : URL.t) (elem : string) : URL.t :=
  URL.mk (URL.Scheme u) (URL.Opaque u) (URL.Host u) (URL.Path u ++ elem)
         (URL.RawQuery u) (URL.Fragment u).

Definition urlString (u : URL.t) : string :=
  if URL.IsAbs u then URL.Scheme u ++ "://" ++ URL.Host u ++ URL.Path u
  else URL.Path u.

(** A transport that fails every call. *)
Definition offline : Client.t :=
  Client.mk (fun _ => failed (HTTPError "dial tcp: network is unreachable")).

(** [NewTestClient(fn)] with [fn] answering every request alike. *)
Definition NewTestClient (code : Z) (body : string) : Client.t :=
  Client.mk (fun _ => ok (Response.mk code (ok body))).

Definition runtime : Runtime := {|
  unicode_ToLower := fun s => s;
  unicode_ToUpper := fun s => s;
  strconv_Quote_escaped := quoted;
  json_Marshal_escaped := quoted;
  json_Unmarshal_string_other := decode_string_other;
  json_decode_statusErrorResponse := decode_statusErrorResponse;
  json_decode_CheckResult := decode_CheckResult;
  json_decode_Status := decode_Status;
  json_encode_checkRequest := encode_checkRequest;
  url_Parse_other := parse_other;
  URL_JoinPath := joinPath;
  URL_String := urlString;
  http_request_invalid := fun _ _ _ => None;
  http_DefaultClient := offline
|}.

(** [NewValidator(client, "https://example.com/api/")] of the tests. *)
Definition validator (c : Client.t) : Validator.t :=
  Validator.mk
    (URL.mk "https" EmptyString "example.com" "/api/" EmptyString EmptyString) c.
End Stub.

(* ================================================================== *)
(** ** Notions used in the statements *)

(** Equality of two byte strings up to the case of the ASCII letters,
    compared position by position. *)
Fixpoint equalFoldASCII (s t : string) : bool :=
  match s, t with
  | EmptyString, EmptyString => true
  | String a s', String b t' =>
      Ascii.eqb (lowerByte a) (lowerByte b) && equalFoldASCII s' t'
  | _, _ => false
  end.

(** The closed set of [Availability] values. *)
Definition canonicalValues : list Availability :=
  [AvailabilityAvailable; AvailabilityUnavailable; AvailabilityMonitoringDisabled].

Section Notions.
Context {rt : Runtime}.

(** A text matches a canonical value without regard to case when both
    have the same lower-case form.  The lower-case form is that of
    [strings.ToLower]: bytewise on ASCII-only text, Go's Unicode mapping
    otherwise. *)
Definition matchesIgnoringCase (text c : string) : Prop :=
  strings_ToLower text = strings_ToLower c.

(** The request [doJSON] hands to the transport, when it gets that far:
    the encoded body, the joined URL, and the JSON content type exactly
    when there is a body. *)
Definition requestOf {Req : Type} (marshal : Req -> result string)
    (v : Validator.t) (ctx : Context) (method path : string)
    (reqBody : option Req) : result Request.t :=
  let url := URL_String (URL_JoinPath (Validator.endpoint v) path) in
  match reqBody with
  | Some rb =>
      match marshal rb with
      | failed err => failed err
      | ok reqBytes =>
          match http_NewRequestWithContext ctx method url (Some reqBytes) with
          | failed err => failed err
          | ok req => ok (Request.Header_Set req "Content-Type" "application/json")
          end
      end
  | None => http_NewRequestWithContext ctx method url None
  end.

(** What [doJSON] makes of the transport's answer. *)
Definition answerOf {Out : Type} (unmarshal : string -> Out -> Out * error)
    (v : Validator.t) (out : Out) (r : result Response.t) : Out * error :=
  match r with
  | failed err => (out, Some err)
  | ok rsp =>
      match Response.Body rsp with
      | failed err => (out, Some err)
      | ok rspBody =>
          if Z.eqb (Response.StatusCode rsp) 200 then unmarshal rspBody out
          else (out, doError v rspBody)
      end
  end.

(** The request body of [Check]. *)
Definition checkRequestOf (vat : string) : checkRequest.t :=
  checkRequest.mk (strings_ToUpper (slice vat 0 2)) (slice_from vat 2).

(** The endpoint parses, and as an absolute URL. *)
Definition parsesAsAbsoluteURL (endpoint : string) : Prop :=
  exists u, url_Parse endpoint = ok u /\ URL.IsAbs u = true.

(** The failure condition in the specification's words: construction fails
    on an endpoint that does not parse as a valid absolute URL. *)
Definition rejectedUnlessAbsolute (client : option Client.t) (endpoint : string)
  : Prop :=
  ~ parsesAsAbsoluteURL endpoint ->
  exists e, NewValidator client endpoint = (None, Some e).
End Notions.

(* ================================================================== *)
(** ** Characters, as opposed to bytes

    The specification measures the VAT identifier in characters.  On
    well-formed UTF-8 text a character is a leading byte followed by its
    continuation bytes, the bytes from 0x80 to 0xBF. *)

Definition isContinuationByte : ascii -> bool := byte_in 128 191.

(** The number of characters of a text. *)
Fixpoint countCharacters (s : string) : nat :=
  match s with
  | EmptyString => 0
  | String c s' => (if isContinuationByte c then 0 else 1) + countCharacters s'
  end.

(** The first [n] characters of a text, and what follows them. *)
Fixpoint splitCharacters (n : nat) (s : string) : string * string :=
  match s with
  | EmptyString => (EmptyString, EmptyString)
  | String c s' =>
      if isContinuationByte c then
        let '(p, r) := splitCharacters n s' in (String c p, r)
      else
        match n with
        | 0 => (EmptyString, s)
        | S n' => let '(p, r) := splitCharacters n' s' in (String c p, r)
        end
  end.

(** The letters e-acute and E-acute in UTF-8: two bytes each. *)
Definition e_acute : string :=
  String (ascii_of_nat 195) (String (ascii_of_nat 169) EmptyString).
Definition E_acute : string :=
  String (ascii_of_nat 195) (String (ascii_of_nat 137) EmptyString).

(** The stub library with the Unicode case mappings of Go on text made of
    ASCII and of the two-byte letters from a-grave to thorn: after the
    byte 0xC3, a second byte from 0xA0 to 0xBE other than 0xB7 (the
    division sign) is a lower-case letter whose upper-case form has the
    second byte 0x20 lower, and conversely from 0x80 to 0x9E other than
    0x97 (the multiplication sign). *)
Module Latin1.
Fixpoint upper_from (afterC3 : bool) (s : string) : string :=
  match s with
  | EmptyString => EmptyString
  | String c s' =>
      String
        (if afterC3 && byte_in 160 190 c && negb (Nat.eqb (nat_of_ascii c) 183)
         then ascii_of_nat (nat_of_ascii c - 32)
         else upperByte c)
        (upper_from (Nat.eqb (nat_of_ascii c) 195) s')
  end.

Fixpoint lower_from (afterC3 : bool) (s : string) : string :=
  match s with
  | EmptyString => EmptyString
  | String c s' =>
      String
        (if afterC3 && byte_in 128 158 c && negb (Nat.eqb (nat_of_ascii c) 151)
         then ascii_of_nat (nat_of_ascii c + 32)
         else lowerByte c)
        (lower_from (Nat.eqb (nat_of_ascii c) 195) s')
  end.

Definition runtime : Runtime := {|
  unicode_ToLower := lower_from false;
  unicode_ToUpper := upper_from false;
  strconv_Quote_escaped := quoted;
  json_Marshal_escaped := quoted;
  json_Unmarshal_string_other := Stub.decode_string_other;
  json_decode_statusErrorResponse := Stub.decode_statusErrorResponse;
  json_decode_CheckResult := Stub.decode_CheckResult;
  json_decode_Status := Stub.decode_Status;
  json_encode_checkRequest := Stub.encode_checkRequest;
  url_Parse_other := Stub.parse_other;
  URL_JoinPath := Stub.joinPath;
  URL_String := Stub.urlString;
  http_request_invalid := fun _ _ _ => None;
  http_DefaultClient := Stub.offline
|}.
End Latin1.

Section CharacterReadings.
Context {rt : Runtime}.

(** The length guard of [Check] in the specification's words: an input of
    fewer than two characters is refused with the format error and nothing
    is sent. *)
Definition refusedBelowTwoCharacters (v : Validator.t) (ctx : Context)
    (vat : string) : Prop :=
  countCharacters vat < 2 ->
  value (Check v ctx vat)
    = (None, Some (errorString ("invalid VAT provided " ++ vat)))
  /\ calls (Check v ctx vat) = [].

(** The request body of [Check] in the specification's words: for an input
    of at least two characters, the encoding of the upper-cased first two
    characters as country code and of the characters after them as VAT
    number. *)
Definition sendsCharacterSplit (v : Validator.t) (ctx : Context)
    (vat : string) : Prop :=
  2 <= countCharacters vat ->
  forall req, In req (calls (Check v ctx vat)) ->
    exists bytes,
      json_Marshal_checkRequest
        (checkRequest.mk (strings_ToUpper (fst (splitCharacters 2 vat)))
                         (snd (splitCharacters 2 vat))) = ok bytes
      /\ Request.Body req = Some bytes.
End CharacterReadings.

(* ================================================================== *)
(** * Properties *)

Unset Implicit Arguments.

(** ** Bytes and case *)

Lemma map_lowerByte_fixed (s : string) :
  existsb_string isUpperByte s = false -> map_string lowerByte s = s.
Proof.
  induction s as [|c s IH]; simpl; intros H; [reflexivity|].
  apply orb_false_iff in H as [Hc Hs].
  rewrite (IH Hs); unfold lowerByte; rewrite Hc; reflexivity.
Qed.

Lemma map_upperByte_fixed (s : string) :
  existsb_string isLowerByte s = false -> map_string upperByte s = s.
Proof.
  induction s as [|c s IH]; simpl; intros H; [reflexivity|].
  apply orb_false_iff in H as [Hc Hs].
  rewrite (IH Hs); unfold upperByte; rewrite Hc; reflexivity.
Qed.

Section CaseLemmas.
Context {rt : Runtime}.

(** On ASCII-only text [strings.ToLower] is the bytewise mapping. *)
Lemma strings_ToLower_ascii (s : string) :
  isASCII s = true -> strings_ToLower s = map_string lowerByte s.
Proof.
  intros H; unfold strings_ToLower; rewrite H.
  destruct (existsb_string isUpperByte s) eqn:E; simpl; [reflexivity|].
  symmetry; apply map_lowerByte_fixed; assumption.
Qed.

Lemma strings_ToUpper_ascii (s : string) :
  isASCII s = true -> strings_ToUpper s = map_string upperByte s.
Proof.
  intros H; unfold strings_ToUpper; rewrite H.
  destruct (existsb_string isLowerByte s) eqn:E; simpl; [reflexivity|].
  symmetry; apply map_upperByte_fixed; assumption.
Qed.
End CaseLemmas.

Lemma equalFoldASCII_map (s t : string) :
  equalFoldASCII s t = true <-> map_string lowerByte s = map_string lowerByte t.
Proof.
  revert t; induction s as [|a s IH]; intros [|b t]; simpl;
    try (split; [discriminate | discriminate]).
  - split; reflexivity.
  - rewrite andb_true_iff, Ascii.eqb_eq, IH.
    split; [intros [-> ->]; reflexivity | intros H; inversion H; auto].
Qed.

(** ** Availability *)

Lemma isAvailabilityConstant_spec (a : Availability) :
  isAvailabilityConstant a = true <-> In a canonicalValues.
Proof.
  unfold isAvailabilityConstant, canonicalValues; simpl.
  rewrite !orb_true_iff, !String.eqb_eq.
  intuition (auto; try contradiction).
Qed.

(** Goals of the form [In a canonicalValues -> P a] with [P] computable:
    one case per constant. *)
Ltac by_constant :=
  simpl; intros [<- | [<- | [<- | []]]]; reflexivity.

Lemma canonical_plain (a : Availability) :
  In a canonicalValues -> plain a = true.
Proof. by_constant. Qed.

Lemma unquoted_quoted (s : string) : plain s = true -> unquoted (quoted s) = Some s.
Proof.
  unfold unquoted, quoted.
  replace (Ascii.eqb dquote dquote) with true by reflexivity.
  induction s as [|c s IH]; simpl; intros H; [reflexivity|].
  apply andb_true_iff in H as [Hc Hs].
  assert (Hq : Ascii.eqb c dquote = false).
  { unfold plainByte in Hc.
    destruct (Ascii.eqb c dquote); [|reflexivity].
    rewrite !andb_true_iff in Hc; simpl in Hc. intuition discriminate. }
  rewrite Hq, Hc, (IH Hs); reflexivity.
Qed.

Section AvailabilityFacts.
Context {rt : Runtime}.

Lemma canonical_lower (c : Availability) :
  In c canonicalValues -> strings_ToLower c = c.
Proof. by_constant. Qed.

Lemma canonical_isASCII (c : Availability) :
  In c canonicalValues -> isASCII c = true.
Proof. by_constant. Qed.

(** On ASCII-only text, matching without regard to case is the bytewise
    comparison up to the case of the letters. *)
Lemma matchesIgnoringCase_ascii (text c : string) :
  isASCII text = true -> In c canonicalValues ->
  (matchesIgnoringCase text c <-> equalFoldASCII text c = true).
Proof.
  intros Ht Hc; unfold matchesIgnoringCase.
  rewrite (strings_ToLower_ascii _ Ht),
          (strings_ToLower_ascii _ (canonical_isASCII _ Hc)).
  symmetry; apply equalFoldASCII_map.
Qed.

Lemma UnmarshalJSON_decoded (a data text : string) :
  json_Unmarshal_string data EmptyString = (text, None) ->
  UnmarshalJSON a data =
    if isAvailabilityConstant (strings_ToLower text)
    then (strings_ToLower text, None)
    else (a, Some (errorString
                     ("invalid availability: " ++ strconv_Quote (strings_ToLower text)))).
Proof. intros H; unfold UnmarshalJSON; rewrite H; reflexivity. Qed.

Lemma UnmarshalJSON_success (a0 data a : string) :
  UnmarshalJSON a0 data = (a, None) ->
  exists text,
    json_Unmarshal_string data EmptyString = (text, None)
    /\ a = strings_ToLower text /\ In a canonicalValues.
Proof.
  unfold UnmarshalJSON.
  destruct (json_Unmarshal_string data EmptyString) as [text [e|]] eqn:E;
    [discriminate|].
  destruct (isAvailabilityConstant (strings_ToLower text)) eqn:K;
    [|discriminate].
  intros H; inversion H; subst.
  exists text; repeat split; apply isAvailabilityConstant_spec; assumption.
Qed.

Lemma MarshalJSON_canonical (a : Availability) :
  In a canonicalValues -> MarshalJSON a = (Some (quoted a), None).
Proof.
  intros H; unfold MarshalJSON, json_Marshal_string.
  rewrite (proj2 (isAvailabilityConstant_spec a) H), (canonical_plain _ H).
  reflexivity.
Qed.

Lemma UnmarshalJSON_quoted_canonical (a0 a : Availability) :
  In a canonicalValues -> UnmarshalJSON a0 (quoted a) = (a, None).
Proof.
  intros H.
  rewrite (UnmarshalJSON_decoded a0 (quoted a) a).
  - rewrite (canonical_lower _ H), (proj2 (isAvailabilityConstant_spec a) H).
    reflexivity.
  - unfold json_Unmarshal_string.
    rewrite (unquoted_quoted _ (canonical_plain _ H)); reflexivity.
Qed.
End AvailabilityFacts.

Section AvailabilityClaims.
Context {rt : Runtime}.

(** C6.  Decoding a JSON string whose text is [text] succeeds exactly when
    [text] matches one of "available", "unavailable", "monitoring disabled"
    without regard to case, and then stores that canonical value, whatever
    the casing of [text]; for any other text the decoder returns an error
    and leaves its target alone.  On ASCII-only text the match is the
    bytewise comparison up to the case of the letters. *)
Theorem UnmarshalJSON_case_insensitive (a0 data text : string) :
  json_Unmarshal_string data EmptyString = (text, None) ->
  (forall c, In c canonicalValues -> matchesIgnoringCase text c ->
             UnmarshalJSON a0 data = (c, None))
  /\ ((forall c, In c canonicalValues -> ~ matchesIgnoringCase text c) ->
      exists e, UnmarshalJSON a0 data = (a0, Some e))
  /\ (forall a, UnmarshalJSON a0 data = (a, None) ->
                In a canonicalValues /\ matchesIgnoringCase text a)
  /\ (isASCII text = true ->
      forall c, In c canonicalValues ->
                (matchesIgnoringCase text c <-> equalFoldASCII text c = true)).
Proof.
  intros Hdec.
  pose proof (UnmarshalJSON_decoded a0 data text Hdec) as Hrun.
  repeat split.
  - intros c Hc Hm. rewrite Hrun.
    unfold matchesIgnoringCase in Hm.
    rewrite (canonical_lower c Hc) in Hm. rewrite Hm.
    rewrite (proj2 (isAvailabilityConstant_spec c) Hc). reflexivity.
  - intros Hno. rewrite Hrun.
    destruct (isAvailabilityConstant (strings_ToLower text)) eqn:K.
    + apply isAvailabilityConstant_spec in K.
      exfalso. apply (Hno _ K). unfold matchesIgnoringCase.
      rewrite (canonical_lower _ K). reflexivity.
    + eexists; reflexivity.
  - destruct (UnmarshalJSON_success a0 data a H) as (t & Ht & _ & Hin).
    exact Hin.
  - destruct (UnmarshalJSON_success a0 data a H) as (t & Ht & Ha & Hin).
    rewrite Hdec in Ht. inversion Ht; subst t.
    unfold matchesIgnoringCase. rewrite (canonical_lower a Hin). symmetry; exact Ha.
  - apply matchesIgnoringCase_ascii; assumption.
  - apply matchesIgnoringCase_ascii; assumption.
Qed.

(** C7.  Each of the three canonical values encodes to a document that
    decodes back to the same value; a value outside the canonical set is
    not encoded: [MarshalJSON] returns no bytes and an error. *)
Theorem MarshalJSON_roundtrip :
  (forall a, In a canonicalValues ->
     exists data, MarshalJSON a = (Some data, None)
                  /\ forall a0, UnmarshalJSON a0 data = (a, None))
  /\ (forall a, ~ In a canonicalValues ->
        exists e, MarshalJSON a = (None, Some e)).
Proof.
  split.
  - intros a Ha. exists (quoted a). split.
    + apply MarshalJSON_canonical; assumption.
    + intros a0. apply UnmarshalJSON_quoted_canonical; assumption.
  - intros a Ha. unfold MarshalJSON.
    destruct (isAvailabilityConstant a) eqn:K.
    + apply isAvailabilityConstant_spec in K. contradiction.
    + eexists; reflexivity.
Qed.

(** C9.  Whatever a successful decode stores is one of the three canonical
    lower-case values, namely the lower-cased text of the input; encoding
    it again succeeds and emits exactly that value between double quotes. *)
Theorem UnmarshalJSON_result_reencodes (a0 data a : string) :
  UnmarshalJSON a0 data = (a, None) ->
  In a canonicalValues
  /\ (exists text, json_Unmarshal_string data EmptyString = (text, None)
                   /\ a = strings_ToLower text)
  /\ strings_ToLower a = a
  /\ MarshalJSON a = (Some (quoted a), None).
Proof.
  intros H.
  destruct (UnmarshalJSON_success a0 data a H) as (text & Ht & Ha & Hin).
  repeat split.
  - exact Hin.
  - exists text; split; assumption.
  - apply canonical_lower; exact Hin.
  - apply MarshalJSON_canonical; exact Hin.
Qed.
End AvailabilityClaims.

Lemma UnmarshalJSON_case_insensitive_witness :
  json_Unmarshal_string (rt := Stub.runtime) (quoted "AvailABLE") EmptyString
    = ("AvailABLE", None)
  /\ In AvailabilityAvailable canonicalValues
  /\ matchesIgnoringCase (rt := Stub.runtime) "AvailABLE" AvailabilityAvailable
  /\ UnmarshalJSON (rt := Stub.runtime) "unavailable" (quoted "AvailABLE")
     = (AvailabilityAvailable, None).
Proof.
  assert (Hin : In AvailabilityAvailable canonicalValues) by (left; reflexivity).
  split; [reflexivity|]. split; [exact Hin|]. split; [reflexivity|].
  exact (proj1 (UnmarshalJSON_case_insensitive (rt := Stub.runtime)
                  "unavailable" (quoted "AvailABLE") "AvailABLE" eq_refl)
           AvailabilityAvailable Hin eq_refl).
Defined.

Lemma MarshalJSON_roundtrip_witness :
  In AvailabilityMonitoringDisabled canonicalValues
  /\ exists data,
       MarshalJSON (rt := Stub.runtime) AvailabilityMonitoringDisabled = (Some data, None)
       /\ forall a0, UnmarshalJSON (rt := Stub.runtime) a0 data
                     = (AvailabilityMonitoringDisabled, None).
Proof.
  assert (H : In AvailabilityMonitoringDisabled canonicalValues)
    by (right; right; left; reflexivity).
  split; [exact H|].
  exact (proj1 (MarshalJSON_roundtrip (rt := Stub.runtime)) _ H).
Defined.

Lemma UnmarshalJSON_result_reencodes_witness :
  UnmarshalJSON (rt := Stub.runtime) EmptyString (quoted "Monitoring Disabled")
    = (AvailabilityMonitoringDisabled, None)
  /\ MarshalJSON (rt := Stub.runtime) AvailabilityMonitoringDisabled
     = (Some (quoted "monitoring disabled"), None).
Proof.
  split; [reflexivity|].
  apply (UnmarshalJSON_result_reencodes (rt := Stub.runtime)
           EmptyString (quoted "Monitoring Disabled") _ eq_refl).
Defined.

(** The decoder's tests: a mixed-case value, an unknown value, a number. *)
Example UnmarshalJSON_tests :
  UnmarshalJSON (rt := Stub.runtime) EmptyString (quoted "Available")
    = (AvailabilityAvailable, None)
  /\ UnmarshalJSON (rt := Stub.runtime) EmptyString (quoted "unavailable")
     = (AvailabilityUnavailable, None)
  /\ option_map Error
       (snd (UnmarshalJSON (rt := Stub.runtime) EmptyString (quoted "bogus")))
     = Some ("invalid availability: " ++ quoted "bogus")%string
  /\ option_map Error (snd (UnmarshalJSON (rt := Stub.runtime) EmptyString "123"))
     = Some "json: cannot unmarshal number into Go value of type string".
Proof. repeat split. Qed.

(** The encoder's tests. *)
Example MarshalJSON_tests :
  MarshalJSON (rt := Stub.runtime) AvailabilityAvailable = (Some (quoted "available"), None)
  /\ option_map Error (snd (MarshalJSON (rt := Stub.runtime) "bogus"))
     = Some ("invalid availability: " ++ quoted "bogus")%string.
Proof. repeat split. Qed.

(** ** The shared execution path *)

Section ExecutionPath.
Context {rt : Runtime}.

Lemma doJSON_unfold {Req Out : Type} (marshal : Req -> result string)
    (unmarshal : string -> Out -> Out * error)
    (v : Validator.t) (ctx : Context) (method path : string)
    (reqBody : option Req) (out : Out) :
  doJSON marshal unmarshal v ctx method path reqBody out =
    match requestOf marshal v ctx method path reqBody with
    | failed err => ((out, Some err), [])
    | ok req =>
        (answerOf unmarshal v out (Client.Do (Validator.client v) req), [req])
    end.
Proof.
  unfold doJSON, requestOf, answerOf, io_ReadAll, http_StatusOK.
  destruct reqBody as [rb|].
  - destruct (marshal rb) as [reqBytes|err]; [|reflexivity].
    destruct (http_NewRequestWithContext _ _ _ _) as [req|err]; [|reflexivity].
    unfold bind, client_Do, ret.
    destruct (Client.Do _ _) as [rsp|err]; [|reflexivity].
    destruct (Response.Body rsp) as [rspBody|err]; [|reflexivity].
    destruct (Z.eqb _ _); reflexivity.
  - destruct (http_NewRequestWithContext _ _ _ _) as [req|err]; [|reflexivity].
    unfold bind, client_Do, ret.
    destruct (Client.Do _ _) as [rsp|err]; [|reflexivity].
    destruct (Response.Body rsp) as [rspBody|err]; [|reflexivity].
    destruct (Z.eqb _ _); reflexivity.
Qed.

(** A request that was sent and answered with a status other than 200
    and a readable body ends in [doError], with [out] untouched. *)
Lemma doJSON_non200 {Req Out : Type} (marshal : Req -> result string)
    (unmarshal : string -> Out -> Out * error)
    (v : Validator.t) (ctx : Context) (method path : string)
    (reqBody : option Req) (out : Out)
    (req : Request.t) (rsp : Response.t) (body : string) :
  calls (doJSON marshal unmarshal v ctx method path reqBody out) = [req] ->
  Client.Do (Validator.client v) req = ok rsp ->
  Response.Body rsp = ok body ->
  Response.StatusCode rsp <> 200%Z ->
  value (doJSON marshal unmarshal v ctx method path reqBody out)
    = (out, doError v body).
Proof.
  rewrite doJSON_unfold.
  destruct (requestOf marshal v ctx method path reqBody) as [req'|err];
    simpl; [|discriminate].
  intros Hc Hdo Hbody Hcode. inversion Hc; subst req'.
  unfold value; simpl. unfold answerOf. rewrite Hdo, Hbody.
  apply Z.eqb_neq in Hcode. rewrite Hcode. reflexivity.
Qed.

Lemma doError_cases (v : Validator.t) (body : string) :
  doError v body =
    match json_Unmarshal_statusErrorResponse body statusErrorResponse.zero with
    | (_, Some err) => Some err
    | (e, None) =>
        match statusErrorResponse.ErrorWrappers e with
        | w :: _ =>
            Some (ValidationErr
                    (ValidationError.mk (statusErrorWrapper.Error w)
                                        (statusErrorWrapper.Message w)))
        | [] => Some (errorString "invalid response structure")
        end
    end.
Proof. reflexivity. Qed.

Lemma doError_not_nil (v : Validator.t) (body : string) : doError v body <> None.
Proof.
  rewrite doError_cases.
  destruct (json_Unmarshal_statusErrorResponse _ _) as [e [err|]];
    [discriminate|].
  destruct (statusErrorResponse.ErrorWrappers e); discriminate.
Qed.

(** A failure of the envelope decoder is an error of [encoding/json]. *)
Lemma json_Unmarshal_statusErrorResponse_error (body : string)
    (e0 e : statusErrorResponse.t) (err : GoError) :
  json_Unmarshal_statusErrorResponse body e0 = (e, Some err) ->
  exists j, err = JSONError j.
Proof.
  unfold json_Unmarshal_statusErrorResponse.
  destruct (json_decode_statusErrorResponse body e0) as [e' [j|]]; simpl;
    intros H; inversion H; eauto.
Qed.

(** C1.  When a request got a response whose status is not 200, the error
    [doJSON] returns is decided by the envelope decoder alone: an envelope
    with at least one entry gives the [ValidationError] of its first entry,
    rendered as code, colon, space, message, whatever entries follow; a
    decoder failure is returned as it is and is no [ValidationError]; an
    envelope without entries gives the error "invalid response structure",
    no [ValidationError] either. *)
Theorem doJSON_non200_classifies {Req Out : Type}
    (marshal : Req -> result string)
    (unmarshal : string -> Out -> Out * error)
    (v : Validator.t) (ctx : Context) (method path : string)
    (reqBody : option Req) (out : Out)
    (req : Request.t) (rsp : Response.t) (body : string) :
  calls (doJSON marshal unmarshal v ctx method path reqBody out) = [req] ->
  Client.Do (Validator.client v) req = ok rsp ->
  Response.Body rsp = ok body ->
  Response.StatusCode rsp <> 200%Z ->
  let err := snd (value (doJSON marshal unmarshal v ctx method path reqBody out)) in
  let decoded := json_Unmarshal_statusErrorResponse body statusErrorResponse.zero in
  (forall e w ws,
      decoded = (e, None) ->
      statusErrorResponse.ErrorWrappers e = w :: ws ->
      err = Some (ValidationErr
                    (ValidationError.mk (statusErrorWrapper.Error w)
                                        (statusErrorWrapper.Message w)))
      /\ option_map Error err
         = Some (statusErrorWrapper.Error w ++ ": " ++ statusErrorWrapper.Message w)%string)
  /\ (forall e d,
         decoded = (e, Some d) ->
         err = Some d /\ isValidationError d = false)
  /\ (forall e,
         decoded = (e, None) ->
         statusErrorResponse.ErrorWrappers e = [] ->
         err = Some (errorString "invalid response structure")
         /\ option_map isValidationError err = Some false).
Proof.
  intros Hc Hdo Hbody Hcode err decoded.
  assert (Herr : err = doError v body).
  { unfold err.
    rewrite (doJSON_non200 marshal unmarshal v ctx method path reqBody out
               req rsp body Hc Hdo Hbody Hcode).
    reflexivity. }
  rewrite Herr, doError_cases. fold decoded.
  repeat split.
  - rewrite H, H0; reflexivity.
  - rewrite H, H0; reflexivity.
  - rewrite H; reflexivity.
  - destruct (json_Unmarshal_statusErrorResponse_error body _ e d H) as [j ->].
    reflexivity.
  - rewrite H, H0; reflexivity.
  - rewrite H, H0; reflexivity.
Qed.

(** C10.  [doError] returns a non-nil error for every body; so a request
    answered with a status other than 200 makes [doJSON] return a non-nil
    error, and the target of [out] is what it was before the call. *)
Theorem doJSON_non200_never_succeeds :
  (forall (v : Validator.t) (body : string), doError v body <> None)
  /\ (forall (Req Out : Type) (marshal : Req -> result string)
             (unmarshal : string -> Out -> Out * error)
             (v : Validator.t) (ctx : Context) (method path : string)
             (reqBody : option Req) (out : Out)
             (req : Request.t) (rsp : Response.t) (body : string),
        calls (doJSON marshal unmarshal v ctx method path reqBody out) = [req] ->
        Client.Do (Validator.client v) req = ok rsp ->
        Response.Body rsp = ok body ->
        Response.StatusCode rsp <> 200%Z ->
        snd (value (doJSON marshal unmarshal v ctx method path reqBody out)) <> None
        /\ fst (value (doJSON marshal unmarshal v ctx method path reqBody out)) = out).
Proof.
  split; [exact doError_not_nil|].
  intros Req Out marshal unmarshal v ctx method path reqBody out req rsp body
         Hc Hdo Hbody Hcode.
  rewrite (doJSON_non200 marshal unmarshal v ctx method path reqBody out
             req rsp body Hc Hdo Hbody Hcode).
  simpl. split; [apply doError_not_nil | reflexivity].
Qed.
End ExecutionPath.

(** The test "non-200 returns validation error", with a second entry added
    to the envelope: the first one is reported. *)
Lemma doJSON_non200_classifies_witness :
  let v := Stub.validator (Stub.NewTestClient 400 Stub.twoErrorsBody) in
  let run := doJSON (rt := Stub.runtime) json_Marshal_nil
               (json_decode_Status (Runtime := Stub.runtime) (UnmarshalJSON (rt := Stub.runtime)))
               v Background http_MethodGet "ping" None Status.zero in
  let req := Request.mk Background "GET" "https://example.com/api/ping" [] None in
  let rsp := Response.mk 400 (ok Stub.twoErrorsBody) in
  calls run = [req]
  /\ Client.Do (Validator.client v) req = ok rsp
  /\ Response.Body rsp = ok Stub.twoErrorsBody
  /\ Response.StatusCode rsp <> 200%Z
  /\ snd (value run) = Some (ValidationErr (ValidationError.mk "err" "msg"))
  /\ option_map Error (snd (value run)) = Some "err: msg".
Proof.
  intros v run req rsp.
  assert (Hcode : Response.StatusCode rsp <> 200%Z) by discriminate.
  split; [reflexivity|]. split; [reflexivity|]. split; [reflexivity|].
  split; [exact Hcode|].
  exact (proj1 (doJSON_non200_classifies (rt := Stub.runtime) json_Marshal_nil
                  (json_decode_Status (Runtime := Stub.runtime) (UnmarshalJSON (rt := Stub.runtime)))
                  v Background http_MethodGet "ping" None Status.zero
                  req rsp Stub.twoErrorsBody eq_refl eq_refl eq_refl Hcode)
               _ (statusErrorWrapper.mk "err" "msg")
               [statusErrorWrapper.mk "e2" "m2"] eq_refl eq_refl).
Defined.

Lemma doJSON_non200_never_succeeds_witness :
  let v := Stub.validator (Stub.NewTestClient 500 "!") in
  let run := doJSON (rt := Stub.runtime) json_Marshal_nil
               (json_decode_Status (Runtime := Stub.runtime) (UnmarshalJSON (rt := Stub.runtime)))
               v Background http_MethodGet "ping" None Status.zero in
  let req := Request.mk Background "GET" "https://example.com/api/ping" [] None in
  let rsp := Response.mk 500 (ok "!") in
  calls run = [req]
  /\ Client.Do (Validator.client v) req = ok rsp
  /\ Response.Body rsp = ok "!"
  /\ Response.StatusCode rsp <> 200%Z
  /\ snd (value run) <> None
  /\ fst (value run) = Status.zero.
Proof.
  intros v run req rsp.
  assert (Hcode : Response.StatusCode rsp <> 200%Z) by discriminate.
  split; [reflexivity|]. split; [reflexivity|]. split; [reflexivity|].
  split; [exact Hcode|].
  exact (proj2 (doJSON_non200_never_succeeds (rt := Stub.runtime))
           _ _ json_Marshal_nil (json_decode_Status (Runtime := Stub.runtime) (UnmarshalJSON (rt := Stub.runtime)))
           v Background http_MethodGet "ping" None Status.zero
           req rsp "!" eq_refl eq_refl eq_refl Hcode).
Defined.

(** The three cases of the test of [doError]. *)
Example doError_tests :
  option_map Error (doError (rt := Stub.runtime) (Stub.validator Stub.offline) "!")
    = Some "invalid character '!' looking for beginning of value"
  /\ option_map Error (doError (rt := Stub.runtime) (Stub.validator Stub.offline) "{}")
     = Some "invalid response structure"
  /\ option_map Error
       (doError (rt := Stub.runtime) (Stub.validator Stub.offline) Stub.errBodySpaced)
     = Some "err: msg".
Proof. repeat split. Qed.

(** ** Slicing and upper-casing the VAT identifier *)

Lemma substring_whole (s : string) : substring 0 (String.length s) s = s.
Proof. induction s as [|c s IH]; simpl; [|rewrite IH]; reflexivity. Qed.

Lemma slice_prefix_rest (vat : string) :
  2 <= String.length vat ->
  vat = (slice vat 0 2 ++ slice_from vat 2)%string
  /\ String.length (slice vat 0 2) = 2.
Proof.
  destruct vat as [|a [|b rest]]; simpl; try lia. intros _.
  unfold slice, slice_from; simpl.
  rewrite Nat.sub_0_r, substring_whole.
  destruct rest; simpl; split; reflexivity.
Qed.

Lemma upperByte_lowerByte (c : ascii) : upperByte (lowerByte c) = upperByte c.
Proof. destruct c as [[] [] [] [] [] [] [] []]; reflexivity. Qed.

Lemma map_upperByte_fold (s t : string) :
  equalFoldASCII s t = true -> map_string upperByte s = map_string upperByte t.
Proof.
  revert t; induction s as [|a s IH]; intros [|b t]; simpl;
    try discriminate; [reflexivity|].
  intros H. apply andb_true_iff in H as [Hab Hst].
  apply Ascii.eqb_eq in Hab.
  rewrite <- (upperByte_lowerByte a), Hab, upperByte_lowerByte, (IH t Hst).
  reflexivity.
Qed.

(** ** Check *)

Section CheckClaims.
Context {rt : Runtime}.

Lemma Check_short (v : Validator.t) (ctx : Context) (vat : string) :
  String.length vat < 2 ->
  Check v ctx vat
  = ((None, Some (errorString ("invalid VAT provided " ++ vat))), []).
Proof.
  intros H. unfold Check.
  destruct (Nat.ltb_spec (String.length vat) 2); [reflexivity | lia].
Qed.

Lemma Check_long (v : Validator.t) (ctx : Context) (vat : string) :
  2 <= String.length vat ->
  Check v ctx vat =
    match requestOf json_Marshal_checkRequest v ctx http_MethodPost
            ViesCheckVatPath (Some (checkRequestOf vat)) with
    | failed err => ((None, Some err), [])
    | ok req =>
        (match answerOf json_Unmarshal_CheckResult v CheckResult.zero
                 (Client.Do (Validator.client v) req) with
         | (_, Some err) => (None, Some err)
         | (status, None) =>
             (Some (CheckResult.set_Vat status
                      (CheckResult.CountryCode status ++ CheckResult.VatNumber status)),
              None)
         end, [req])
    end.
Proof.
  intros H. unfold Check.
  destruct (Nat.ltb_spec (String.length vat) 2); [lia|].
  fold (checkRequestOf vat). rewrite doJSON_unfold.
  destruct (requestOf _ _ _ _ _ _) as [req|err]; [|reflexivity].
  unfold bind, ret.
  destruct (answerOf _ _ _ _) as [status [err|]]; reflexivity.
Qed.

(** [Check] returns a result or an error, never both and never neither. *)
Lemma Check_result_or_error (v : Validator.t) (ctx : Context) (vat : string) :
  (exists r, value (Check v ctx vat) = (Some r, None))
  \/ (exists e, value (Check v ctx vat) = (None, Some e)).
Proof.
  destruct (Nat.lt_ge_cases (String.length vat) 2) as [Hs|Hl].
  - right. rewrite (Check_short v ctx vat Hs). eexists; reflexivity.
  - rewrite (Check_long v ctx vat Hl).
    destruct (requestOf _ _ _ _ _ _) as [req|err].
    + unfold value; simpl.
      destruct (answerOf _ _ _ _) as [status [err|]];
        [right | left]; eexists; reflexivity.
    + right; eexists; reflexivity.
Qed.

(** C2, as the code has it.  An input shorter than two bytes makes [Check] return no result
    and the error "invalid VAT provided " followed by the input itself,
    and nothing is handed to the transport. *)
Theorem Check_short_input (v : Validator.t) (ctx : Context) (vat : string) :
  String.length vat < 2 ->
  value (Check v ctx vat)
    = (None, Some (errorString ("invalid VAT provided " ++ vat)))
  /\ option_map Error (snd (value (Check v ctx vat)))
     = Some ("invalid VAT provided " ++ vat)%string
  /\ calls (Check v ctx vat) = [].
Proof.
  intros H. rewrite (Check_short v ctx vat H). repeat split.
Qed.

(** C3, as the code has it.  For an input of at least two bytes, split as its first two bytes
    and the rest, [Check] encodes the record whose [countryCode] is the
    upper-cased prefix and whose [vatNumber] is the rest as it stands; the
    upper-cased prefix does not depend on the case of the prefix's ASCII
    letters; and when the encoding and the construction of the request
    succeed, exactly one request goes to the transport, a POST whose body
    is that encoding. *)
Theorem Check_request_body (v : Validator.t) (ctx : Context) (vat : string) :
  2 <= String.length vat ->
  let prefix := slice vat 0 2 in
  let rest := slice_from vat 2 in
  let reqBody := checkRequest.mk (strings_ToUpper prefix) rest in
  vat = (prefix ++ rest)%string
  /\ String.length prefix = 2
  /\ (forall p, isASCII prefix = true -> isASCII p = true ->
                equalFoldASCII p prefix = true ->
                strings_ToUpper p = strings_ToUpper prefix)
  /\ match json_Marshal_checkRequest reqBody with
     | failed _ => calls (Check v ctx vat) = []
     | ok bytes =>
         match http_request_invalid ctx http_MethodPost
                 (URL_String (URL_JoinPath (Validator.endpoint v) ViesCheckVatPath)) with
         | Some _ => calls (Check v ctx vat) = []
         | None =>
             exists req,
               calls (Check v ctx vat) = [req]
               /\ Request.Body req = Some bytes
               /\ Request.Method req = "POST"
         end
     end.
Proof.
  intros H prefix rest reqBody.
  destruct (slice_prefix_rest vat H) as [Hsplit Hlen].
  split; [exact Hsplit|]. split; [exact Hlen|]. split.
  - intros p Hprefix Hp Hfold.
    rewrite (strings_ToUpper_ascii p Hp), (strings_ToUpper_ascii prefix Hprefix).
    apply map_upperByte_fold; exact Hfold.
  - rewrite (Check_long v ctx vat H).
    unfold requestOf, checkRequestOf. fold prefix rest reqBody.
    destruct (json_Marshal_checkRequest reqBody) as [bytes|err]; [|reflexivity].
    unfold http_NewRequestWithContext.
    destruct (http_request_invalid _ _ _) as [msg|]; [reflexivity|].
    eexists; repeat split.
Qed.

(** C4.  When the request of [Check] is answered with status 200 and a
    body that decodes, the result's fields are the decoded ones except
    [Vat], which is the decoded country code followed by the decoded VAT
    number; the input string plays no part in it. *)
Theorem Check_vat_from_response (v : Validator.t) (ctx : Context) (vat : string)
    (req : Request.t) (rsp : Response.t) (body : string) (decoded : CheckResult.t) :
  calls (Check v ctx vat) = [req] ->
  Client.Do (Validator.client v) req = ok rsp ->
  Response.StatusCode rsp = 200%Z ->
  Response.Body rsp = ok body ->
  json_Unmarshal_CheckResult body CheckResult.zero = (decoded, None) ->
  exists r,
    value (Check v ctx vat) = (Some r, None)
    /\ CheckResult.Vat r
       = (CheckResult.CountryCode decoded ++ CheckResult.VatNumber decoded)%string
    /\ CheckResult.CountryCode r = CheckResult.CountryCode decoded
    /\ CheckResult.VatNumber r = CheckResult.VatNumber decoded
    /\ CheckResult.Valid r = CheckResult.Valid decoded
    /\ CheckResult.Name r = CheckResult.Name decoded.
Proof.
  intros Hc Hdo Hcode Hbody Hdec.
  destruct (Nat.lt_ge_cases (String.length vat) 2) as [Hs|Hl].
  { rewrite (Check_short v ctx vat Hs) in Hc. discriminate. }
  rewrite (Check_long v ctx vat Hl) in Hc |- *.
  destruct (requestOf _ _ _ _ _ _) as [req'|err]; [|discriminate].
  inversion Hc; subst req'.
  unfold answerOf. rewrite Hdo, Hbody, Hcode, Hdec. simpl.
  eexists; repeat split.
Qed.
End CheckClaims.

Lemma Check_short_input_witness :
  String.length "E" < 2
  /\ value (Check (rt := Stub.runtime)
              (Stub.validator (Stub.NewTestClient 200 Stub.checkBody)) Background "E")
     = (None, Some (errorString "invalid VAT provided E"))
  /\ calls (Check (rt := Stub.runtime)
              (Stub.validator (Stub.NewTestClient 200 Stub.checkBody)) Background "E")
     = [].
Proof.
  assert (H : String.length "E" < 2) by (simpl; lia).
  split; [exact H|].
  pose proof (Check_short_input (rt := Stub.runtime)
                (Stub.validator (Stub.NewTestClient 200 Stub.checkBody))
                Background "E" H) as (Hv & _ & Hc).
  split; [exact Hv | exact Hc].
Defined.

Lemma Check_request_body_witness :
  let v := Stub.validator (Stub.NewTestClient 200 Stub.checkBody) in
  2 <= String.length "ee123"
  /\ exists req,
       calls (Check (rt := Stub.runtime) v Background "ee123") = [req]
       /\ Request.Body req = Some (js "{'countryCode':'EE','vatNumber':'123'}")
       /\ Request.Method req = "POST".
Proof.
  intros v.
  assert (H : 2 <= String.length "ee123") by (simpl; lia).
  split; [exact H|].
  exact (proj2 (proj2 (proj2
           (Check_request_body (rt := Stub.runtime) v Background "ee123" H)))).
Defined.

(** The test "valid vat": the input is in lower case, the result's [Vat]
    is built from the response. *)
Lemma Check_vat_from_response_witness :
  let v := Stub.validator (Stub.NewTestClient 200 Stub.checkBody) in
  let req := Request.mk Background "POST" "https://example.com/api/check-vat-number"
               [("Content-Type", "application/json")]
               (Some (js "{'countryCode':'EE','vatNumber':'123'}")) in
  let rsp := Response.mk 200 (ok Stub.checkBody) in
  let decoded := CheckResult.mk "EE" "123" EmptyString true "Acme" in
  calls (Check (rt := Stub.runtime) v Background "ee123") = [req]
  /\ Client.Do (Validator.client v) req = ok rsp
  /\ Response.StatusCode rsp = 200%Z
  /\ Response.Body rsp = ok Stub.checkBody
  /\ json_Unmarshal_CheckResult (rt := Stub.runtime) Stub.checkBody CheckResult.zero
     = (decoded, None)
  /\ exists r,
       value (Check (rt := Stub.runtime) v Background "ee123") = (Some r, None)
       /\ CheckResult.Vat r = "EE123".
Proof.
  intros v req rsp decoded.
  do 5 (split; [reflexivity|]).
  destruct (Check_vat_from_response (rt := Stub.runtime) v Background "ee123"
              req rsp Stub.checkBody decoded
              eq_refl eq_refl eq_refl eq_refl eq_refl) as (r & Hr & Hvat & _).
  exists r. split; [exact Hr | exact Hvat].
Defined.

(** The tests of [Check]. *)
Example Check_tests :
  value (Check (rt := Stub.runtime)
           (Stub.validator (Stub.NewTestClient 200 Stub.checkBody)) Background "ee123")
    = (Some (CheckResult.mk "EE" "123" "EE123" true "Acme"), None)
  /\ option_map Error
       (snd (value (Check (rt := Stub.runtime)
                      (Stub.validator (Stub.NewTestClient 400 Stub.errBody))
                      Background "EE123")))
     = Some "err: msg".
Proof. repeat split. Qed.

(** ** Valid *)

Section ValidClaims.
Context {rt : Runtime}.

Lemma Valid_calls (v : Validator.t) (ctx : Context) (vat : string) :
  calls (Valid v ctx vat) = calls (Check v ctx vat).
Proof.
  unfold Valid, bind, calls.
  destruct (Check v ctx vat) as [[result [err|]] sent]; simpl.
  - apply app_nil_r.
  - destruct result; simpl; apply app_nil_r.
Qed.

Lemma Valid_value (v : Validator.t) (ctx : Context) (vat : string) :
  value (Valid v ctx vat) =
    match value (Check v ctx vat) with
    | (_, Some err) => Returns (false, Some err)
    | (result, None) =>
        match result with
        | Some result => Returns (CheckResult.Valid result, None)
        | None => Panics
        end
    end.
Proof.
  unfold Valid, bind, value.
  destruct (Check v ctx vat) as [[result [err|]] sent]; simpl;
    [reflexivity|].
  destruct result; reflexivity.
Qed.

(** C8.  [Valid] hands the transport what [Check] does and always
    returns.  When [Check] returns an error, [Valid] returns false with
    that very error; when [Check] returns no error, [Valid] returns the
    validity flag of the result with a nil error; so [Valid] never returns
    true together with an error. *)
Theorem Valid_propagates (v : Validator.t) (ctx : Context) (vat : string) :
  calls (Valid v ctx vat) = calls (Check v ctx vat)
  /\ (forall e, snd (value (Check v ctx vat)) = Some e ->
                value (Valid v ctx vat) = Returns (false, Some e))
  /\ (snd (value (Check v ctx vat)) = None ->
      exists r, fst (value (Check v ctx vat)) = Some r
                /\ value (Valid v ctx vat) = Returns (CheckResult.Valid r, None))
  /\ (forall b e, value (Valid v ctx vat) = Returns (b, Some e) -> b = false)
  /\ value (Valid v ctx vat) <> Panics.
Proof.
  split; [apply Valid_calls|].
  rewrite Valid_value.
  destruct (Check_result_or_error v ctx vat) as [[r Hr] | [e Hr]];
    rewrite Hr; simpl; repeat split; intros; try discriminate.
  - exists r; split; reflexivity.
  - inversion H; reflexivity.
  - inversion H; reflexivity.
Qed.
End ValidClaims.

Lemma Valid_propagates_witness :
  let v := Stub.validator (Stub.NewTestClient 400 Stub.errBody) in
  let e := ValidationErr (ValidationError.mk "err" "msg") in
  snd (value (Check (rt := Stub.runtime) v Background "EE123")) = Some e
  /\ value (Valid (rt := Stub.runtime) v Background "EE123") = Returns (false, Some e).
Proof.
  intros v e. split; [reflexivity|].
  exact (proj1 (proj2 (Valid_propagates (rt := Stub.runtime) v Background "EE123"))
           e eq_refl).
Defined.

(** The tests of [Valid]. *)
Example Valid_tests :
  value (Valid (rt := Stub.runtime)
           (Stub.validator (Stub.NewTestClient 200 Stub.checkBody)) Background "EE123")
    = Returns (true, None)
  /\ Valid (rt := Stub.runtime)
       (Stub.validator (Stub.NewTestClient 200 Stub.checkBody)) Background "E"
     = (Returns (false, Some (errorString "invalid VAT provided E")), []).
Proof. repeat split. Qed.

(** The tests of [Status]. *)
Example Status_tests :
  value (Status (rt := Stub.runtime)
           (Stub.validator (Stub.NewTestClient 200 Stub.statusBody)) Background)
    = (Some (Status.mk (StatusVow.mk true)
               [CountryStatus.mk "EE" AvailabilityAvailable]), None)
  /\ option_map Error
       (snd (value (Status (rt := Stub.runtime)
                      (Stub.validator (Stub.NewTestClient 200 "!")) Background)))
     = Some "invalid character '!' looking for beginning of value".
Proof. repeat split. Qed.

(** ** Construction *)

Section NewValidatorClaims.
Context {rt : Runtime}.

Lemma url_Parse_error (rawURL : string) (e : GoError) :
  url_Parse rawURL = failed e -> exists msg, e = URLError msg.
Proof.
  unfold url_Parse.
  destruct (negb (String.eqb rawURL EmptyString)
            && forallb_string isLetterByte rawURL); [discriminate|].
  destruct (url_Parse_other rawURL) as [u|msg]; [discriminate|].
  intros H; inversion H; eauto.
Qed.

(** A bare word is a relative reference: it parses, and the Validator is
    built on it. *)
Lemma NewValidator_bare_word (client : option Client.t) :
  (forall u, url_Parse "foo" = ok u -> URL.IsAbs u = false)
  /\ exists v, NewValidator client "foo" = (Some v, None)
               /\ URL.Path (Validator.endpoint v) = "foo"
               /\ URL.IsAbs (Validator.endpoint v) = false.
Proof.
  split.
  - intros u H. inversion H. reflexivity.
  - eexists; repeat split.
Qed.

(** C5, as the code has it.  An empty endpoint stands for the default
    base URL.  Construction fails exactly when [url.Parse] rejects the
    endpoint, with the parser's error and no Validator; whatever the
    parser accepts, absolute or not, becomes the Validator's endpoint,
    next to the given client or the default one. *)
Theorem NewValidator_parse_decides (client : option Client.t) (endpoint : string) :
  let effective :=
    if String.eqb endpoint EmptyString then ViesEndpointUrl else endpoint in
  (endpoint = EmptyString ->
   effective = ViesEndpointUrl
   /\ NewValidator client endpoint = NewValidator client ViesEndpointUrl)
  /\ (forall e, url_Parse effective = failed e ->
                NewValidator client endpoint = (None, Some e)
                /\ exists msg, e = URLError msg)
  /\ (forall u, url_Parse effective = ok u ->
                NewValidator client endpoint
                = (Some (Validator.mk u
                           match client with
                           | Some c => c
                           | None => http_DefaultClient
                           end), None)).
Proof.
  intros effective. repeat split.
  - unfold effective. rewrite H. reflexivity.
  - rewrite H. reflexivity.
  - unfold NewValidator. fold effective. rewrite H. reflexivity.
  - apply (url_Parse_error effective e H).
  - intros u H. unfold NewValidator. fold effective. rewrite H.
    destruct client; reflexivity.
Qed.
End NewValidatorClaims.

(** C5, as stated, fails on the endpoint "foo": it is no absolute URL, and
    [NewValidator] returns a Validator for it. *)
Lemma NewValidator_accepts_relative_reference :
  ~ rejectedUnlessAbsolute (rt := Stub.runtime) None "foo".
Proof.
  unfold rejectedUnlessAbsolute, parsesAsAbsoluteURL. intros Hclaim.
  destruct (NewValidator_bare_word (rt := Stub.runtime) None)
    as (Hrel & v & Hv & _).
  destruct Hclaim as [e He].
  - intros (u & Hu & Habs). rewrite (Hrel u Hu) in Habs. discriminate.
  - rewrite Hv in He. discriminate.
Qed.

(** The test "invalid endpoint" and the default endpoint. *)
Lemma NewValidator_parse_decides_witness :
  let e := URLError ("parse " ++ quoted "http://[::1" ++ ": invalid URL") in
  url_Parse (rt := Stub.runtime) "http://[::1" = failed e
  /\ NewValidator (rt := Stub.runtime) (Some Stub.offline) "http://[::1"
     = (None, Some e).
Proof.
  intros e. split; [reflexivity|].
  exact (proj1 (proj1 (proj2 (NewValidator_parse_decides (rt := Stub.runtime)
                                (Some Stub.offline) "http://[::1"))
                  e eq_refl)).
Defined.

(** The tests of [NewValidator]. *)
Example NewValidator_tests :
  (exists v, NewValidator (rt := Stub.runtime) None EmptyString = (Some v, None)
             /\ URL_String (Runtime := Stub.runtime) (Validator.endpoint v)
                = ViesEndpointUrl
             /\ Validator.client v = http_DefaultClient (Runtime := Stub.runtime))
  /\ (exists v, NewValidator (rt := Stub.runtime) (Some Stub.offline) Stub.exampleEndpoint
                = (Some v, None)
                /\ URL_String (Runtime := Stub.runtime) (Validator.endpoint v)
                   = Stub.exampleEndpoint)
  /\ fst (NewValidator (rt := Stub.runtime) (Some Stub.offline) "http://[::1") = None.
Proof. repeat split; eexists; repeat split. Qed.

(* ================================================================== *)
(** * Further properties of the operations *)

(** ** More on bytes *)

Lemma lowerByte_upperByte (c : ascii) : lowerByte (upperByte c) = lowerByte c.
Proof. destruct c as [[] [] [] [] [] [] [] []]; reflexivity. Qed.

Lemma upperByte_not_lower (c : ascii) : isLowerByte (upperByte c) = false.
Proof. destruct c as [[] [] [] [] [] [] [] []]; reflexivity. Qed.

Lemma lowerByte_plain (c : ascii) : plainByte c = true -> plainByte (lowerByte c) = true.
Proof. destruct c as [[] [] [] [] [] [] [] []]; intros H; try reflexivity; discriminate H. Qed.

Lemma plainByte_isASCII (c : ascii) : plainByte c = true -> isASCIIbyte c = true.
Proof. destruct c as [[] [] [] [] [] [] [] []]; intros H; try reflexivity; discriminate H. Qed.

Lemma plain_isASCII (s : string) : plain s = true -> isASCII s = true.
Proof.
  induction s as [|c s IH]; simpl; [reflexivity|].
  intros H. apply andb_true_iff in H as [Hc Hs].
  apply andb_true_iff; split; [apply plainByte_isASCII; exact Hc | exact (IH Hs)].
Qed.

Lemma map_lowerByte_plain (s : string) :
  plain s = true -> plain (map_string lowerByte s) = true.
Proof.
  induction s as [|c s IH]; simpl; [reflexivity|].
  intros H. apply andb_true_iff in H as [Hc Hs].
  apply andb_true_iff; split; [apply lowerByte_plain; exact Hc | exact (IH Hs)].
Qed.

Lemma map_string_length (f : ascii -> ascii) (s : string) :
  String.length (map_string f s) = String.length s.
Proof. induction s as [|c s IH]; simpl; [|rewrite IH]; reflexivity. Qed.

Lemma map_upperByte_no_lower (s : string) :
  existsb_string isLowerByte (map_string upperByte s) = false.
Proof.
  induction s as [|c s IH]; simpl; [reflexivity|].
  rewrite upperByte_not_lower, IH; reflexivity.
Qed.

Lemma equalFoldASCII_map_upperByte (s : string) :
  equalFoldASCII (map_string upperByte s) s = true.
Proof.
  induction s as [|c s IH]; simpl; [reflexivity|].
  rewrite lowerByte_upperByte, IH, andb_true_r. apply Ascii.eqb_refl.
Qed.

(** The two slices of [Check] on an input given as a two-byte prefix and a
    rest. *)
Lemma slice_app (p rest : string) :
  String.length p = 2 ->
  slice (p ++ rest) 0 2 = p /\ slice_from (p ++ rest) 2 = rest.
Proof.
  destruct p as [|a [|b [|c p]]]; simpl; try discriminate. intros _.
  unfold slice, slice_from; simpl.
  rewrite Nat.sub_0_r, substring_whole.
  destruct rest; split; reflexivity.
Qed.

(** ** More on the Availability codec *)

Section AvailabilityMore.
Context {rt : Runtime}.

Lemma json_Unmarshal_string_quoted (s value : string) :
  plain s = true -> json_Unmarshal_string (quoted s) value = (s, None).
Proof.
  intros H. unfold json_Unmarshal_string.
  rewrite (unquoted_quoted s H). reflexivity.
Qed.

(** Decoding a string literal of plain bytes. *)
Lemma UnmarshalJSON_plain (a0 text : string) :
  plain text = true ->
  UnmarshalJSON a0 (quoted text) =
    if isAvailabilityConstant (map_string lowerByte text)
    then (map_string lowerByte text, None)
    else (a0, Some (errorString
                      ("invalid availability: " ++ quoted (map_string lowerByte text)))).
Proof.
  intros H.
  rewrite (UnmarshalJSON_decoded a0 (quoted text) text
             (json_Unmarshal_string_quoted text EmptyString H)).
  rewrite (strings_ToLower_ascii text (plain_isASCII text H)).
  unfold strconv_Quote. rewrite (map_lowerByte_plain text H). reflexivity.
Qed.

(** A failed decode leaves the receiver's target as it was, so a target
    holding one of the three constants holds one after any call, whatever
    the input. *)
Theorem UnmarshalJSON_keeps_target :
  (forall a0 data a e, UnmarshalJSON a0 data = (a, Some e) -> a = a0)
  /\ (forall a0 data, In a0 canonicalValues ->
                      In (fst (UnmarshalJSON a0 data)) canonicalValues).
Proof.
  assert (Hfail : forall a0 data a e, UnmarshalJSON a0 data = (a, Some e) -> a = a0).
  { intros a0 data a e. unfold UnmarshalJSON.
    destruct (json_Unmarshal_string data EmptyString) as [text [err|]].
    - intros H; inversion H; reflexivity.
    - destruct (isAvailabilityConstant (strings_ToLower text));
        intros H; inversion H; reflexivity. }
  split; [exact Hfail|].
  intros a0 data Ha0.
  destruct (UnmarshalJSON a0 data) as [a [e|]] eqn:E; simpl.
  - rewrite (Hfail a0 data a e E). exact Ha0.
  - destruct (UnmarshalJSON_success a0 data a E) as (_ & _ & _ & Hin). exact Hin.
Qed.

(** Two string literals of plain bytes that differ only in the case of
    their ASCII letters decode alike: the same value when accepted, the
    same error when rejected. *)
Theorem UnmarshalJSON_ascii_case (a0 s t : string) :
  plain s = true -> plain t = true -> equalFoldASCII s t = true ->
  UnmarshalJSON a0 (quoted s) = UnmarshalJSON a0 (quoted t).
Proof.
  intros Hs Ht Hfold.
  rewrite (UnmarshalJSON_plain a0 s Hs), (UnmarshalJSON_plain a0 t Ht).
  apply equalFoldASCII_map in Hfold. rewrite Hfold. reflexivity.
Qed.

(** A string literal of plain bytes that is none of the three constants,
    letter case apart, is rejected with the error "invalid availability: "
    followed by the lower-cased text between double quotes, and the target
    is left alone. *)
Theorem UnmarshalJSON_rejects_plain (a0 text : string) :
  plain text = true ->
  (forall c, In c canonicalValues -> equalFoldASCII text c = false) ->
  UnmarshalJSON a0 (quoted text)
  = (a0, Some (errorString
                 ("invalid availability: " ++ quoted (map_string lowerByte text)))).
Proof.
  intros Hp Hno.
  rewrite (UnmarshalJSON_plain a0 text Hp).
  destruct (isAvailabilityConstant (map_string lowerByte text)) eqn:K;
    [|reflexivity].
  apply isAvailabilityConstant_spec in K.
  pose proof (Hno _ K) as Hc.
  assert (Heq : equalFoldASCII text (map_string lowerByte text) = true).
  { apply equalFoldASCII_map.
    rewrite <- (strings_ToLower_ascii _ (canonical_isASCII _ K)).
    rewrite (canonical_lower _ K). reflexivity. }
  rewrite Heq in Hc. discriminate.
Qed.
End AvailabilityMore.

Lemma UnmarshalJSON_keeps_target_witness :
  In AvailabilityUnavailable canonicalValues
  /\ UnmarshalJSON (rt := Stub.runtime) AvailabilityUnavailable (quoted "bogus")
     = (AvailabilityUnavailable,
        Some (errorString ("invalid availability: " ++ quoted "bogus")))
  /\ In (fst (UnmarshalJSON (rt := Stub.runtime) AvailabilityUnavailable (quoted "bogus")))
        canonicalValues.
Proof.
  assert (H : In AvailabilityUnavailable canonicalValues)
    by (right; left; reflexivity).
  split; [exact H|]. split; [reflexivity|].
  exact (proj2 (UnmarshalJSON_keeps_target (rt := Stub.runtime))
           AvailabilityUnavailable (quoted "bogus") H).
Defined.

Lemma UnmarshalJSON_ascii_case_witness :
  plain "MONITORING disabled" = true
  /\ plain "monitoring DISABLED" = true
  /\ equalFoldASCII "MONITORING disabled" "monitoring DISABLED" = true
  /\ UnmarshalJSON (rt := Stub.runtime) EmptyString (quoted "MONITORING disabled")
     = UnmarshalJSON (rt := Stub.runtime) EmptyString (quoted "monitoring DISABLED").
Proof.
  do 3 (split; [reflexivity|]).
  exact (UnmarshalJSON_ascii_case (rt := Stub.runtime) EmptyString
           "MONITORING disabled" "monitoring DISABLED" eq_refl eq_refl eq_refl).
Defined.

Lemma UnmarshalJSON_rejects_plain_witness :
  plain "Bogus" = true
  /\ (forall c, In c canonicalValues -> equalFoldASCII "Bogus" c = false)
  /\ UnmarshalJSON (rt := Stub.runtime) AvailabilityAvailable (quoted "Bogus")
     = (AvailabilityAvailable,
        Some (errorString ("invalid availability: " ++ quoted "bogus"))).
Proof.
  assert (Hno : forall c, In c canonicalValues -> equalFoldASCII "Bogus" c = false).
  { simpl; intros c [<- | [<- | [<- | []]]]; reflexivity. }
  split; [reflexivity|]. split; [exact Hno|].
  exact (UnmarshalJSON_rejects_plain (rt := Stub.runtime)
           AvailabilityAvailable "Bogus" eq_refl Hno).
Defined.

(** ** More on the shared execution path *)

Section ExecutionPathMore.
Context {rt : Runtime}.

Lemma requestOf_shape {Req : Type} (marshal : Req -> result string)
    (v : Validator.t) (ctx : Context) (method path : string)
    (reqBody : option Req) (req : Request.t) :
  requestOf marshal v ctx method path reqBody = ok req ->
  Request.Ctx req = ctx
  /\ Request.Method req = (if String.eqb method EmptyString then "GET" else method)
  /\ Request.Url req = URL_String (URL_JoinPath (Validator.endpoint v) path)
  /\ match reqBody with
     | Some rb =>
         exists bytes, marshal rb = ok bytes
                       /\ Request.Body req = Some bytes
                       /\ Request.Header req = [("Content-Type", "application/json")]
     | None => Request.Body req = None /\ Request.Header req = []
     end.
Proof.
  unfold requestOf, http_NewRequestWithContext.
  destruct reqBody as [rb|].
  - destruct (marshal rb) as [bytes|err]; [|discriminate].
    destruct (http_request_invalid _ _ _); [discriminate|].
    intros H; inversion H; subst req; simpl.
    repeat split. exists bytes; repeat split.
  - destruct (http_request_invalid _ _ _); [discriminate|].
    intros H; inversion H; subst req; simpl. repeat split.
Qed.

(** A run of [answerOf] without error is a 200 response whose body was
    read and decoded. *)
Lemma answerOf_success {Out : Type} (unmarshal : string -> Out -> Out * error)
    (v : Validator.t) (out o : Out) (r : result Response.t) :
  answerOf unmarshal v out r = (o, None) ->
  exists rsp body,
    r = ok rsp /\ Response.StatusCode rsp = 200%Z
    /\ Response.Body rsp = ok body /\ unmarshal body out = (o, None).
Proof.
  unfold answerOf.
  destruct r as [rsp|err]; [|discriminate].
  destruct (Response.Body rsp) as [body|err] eqn:Hb; [|discriminate].
  destruct (Z.eqb_spec (Response.StatusCode rsp) 200) as [Hc|Hc].
  - intros H. exists rsp, body. repeat split; assumption.
  - intros H. inversion H as [[Ho He]].
    exfalso. exact (doError_not_nil v body He).
Qed.

(** [doJSON] hands the transport at most one request.  A request it hands
    over carries the caller's context, the method (GET for an empty one),
    and the endpoint joined with the path; with a request body it carries
    the encoded body and the JSON content type, without one it carries
    neither a body nor a header. *)
Theorem doJSON_request_shape {Req Out : Type}
    (marshal : Req -> result string)
    (unmarshal : string -> Out -> Out * error)
    (v : Validator.t) (ctx : Context) (method path : string)
    (reqBody : option Req) (out : Out) :
  length (calls (doJSON marshal unmarshal v ctx method path reqBody out)) <= 1
  /\ forall req,
       In req (calls (doJSON marshal unmarshal v ctx method path reqBody out)) ->
       Request.Ctx req = ctx
       /\ Request.Method req = (if String.eqb method EmptyString then "GET" else method)
       /\ Request.Url req = URL_String (URL_JoinPath (Validator.endpoint v) path)
       /\ match reqBody with
          | Some rb =>
              exists bytes, marshal rb = ok bytes
                            /\ Request.Body req = Some bytes
                            /\ Request.Header req = [("Content-Type", "application/json")]
          | None => Request.Body req = None /\ Request.Header req = []
          end.
Proof.
  rewrite doJSON_unfold.
  destruct (requestOf marshal v ctx method path reqBody) as [req0|err] eqn:E;
    simpl.
  - split; [lia|]. intros req [<- | []].
    exact (requestOf_shape marshal v ctx method path reqBody req0 E).
  - split; [lia|]. intros req [].
Qed.

(** [doJSON] sends nothing exactly when the request body cannot be encoded
    or the request cannot be built; it then returns an error and leaves
    the target of [out] alone. *)
Theorem doJSON_sends_nothing_iff {Req Out : Type}
    (marshal : Req -> result string)
    (unmarshal : string -> Out -> Out * error)
    (v : Validator.t) (ctx : Context) (method path : string)
    (reqBody : option Req) (out : Out) :
  let run := doJSON marshal unmarshal v ctx method path reqBody out in
  let url := URL_String (URL_JoinPath (Validator.endpoint v) path) in
  (calls run = [] <->
   (exists rb e, reqBody = Some rb /\ marshal rb = failed e)
   \/ (exists msg, http_request_invalid ctx method url = Some msg))
  /\ (calls run = [] -> fst (value run) = out /\ snd (value run) <> None)
  /\ (forall rb e, reqBody = Some rb -> marshal rb = failed e ->
                   run = ((out, Some e), [])).
Proof.
  intros run url. unfold run. rewrite doJSON_unfold.
  unfold requestOf, http_NewRequestWithContext. fold url.
  destruct reqBody as [rb|].
  - destruct (marshal rb) as [bytes|err] eqn:Hm.
    + destruct (http_request_invalid ctx method url) as [msg|] eqn:Hi; simpl.
      * repeat split; try discriminate; eauto.
        intros rb' e H; inversion H; subst rb'. rewrite Hm. discriminate.
      * repeat split; try discriminate.
        -- intros [(rb' & e & H & He) | (msg & Hmsg)]; [|discriminate].
           inversion H; subst rb'. rewrite Hm in He. discriminate.
        -- intros rb' e H; inversion H; subst rb'. rewrite Hm. discriminate.
    + simpl. repeat split; try discriminate; eauto.
      intros rb' e H; inversion H; subst rb'. rewrite Hm.
      intros He; inversion He; reflexivity.
  - destruct (http_request_invalid ctx method url) as [msg|] eqn:Hi; simpl.
    + repeat split; try discriminate; eauto.
    + repeat split; try discriminate.
      intros [(rb' & e & H & He) | (msg & Hmsg)]; discriminate.
Qed.

(** When the transport fails, or answers with a body that cannot be read,
    [doJSON] returns that failure as it is, whatever the status code, and
    leaves the target of [out] alone. *)
Theorem doJSON_transport_failure {Req Out : Type}
    (marshal : Req -> result string)
    (unmarshal : string -> Out -> Out * error)
    (v : Validator.t) (ctx : Context) (method path : string)
    (reqBody : option Req) (out : Out) (req : Request.t) (e : GoError) :
  calls (doJSON marshal unmarshal v ctx method path reqBody out) = [req] ->
  Client.Do (Validator.client v) req = failed e
  \/ (exists rsp, Client.Do (Validator.client v) req = ok rsp
                  /\ Response.Body rsp = failed e) ->
  value (doJSON marshal unmarshal v ctx method path reqBody out) = (out, Some e).
Proof.
  rewrite doJSON_unfold.
  destruct (requestOf marshal v ctx method path reqBody) as [req0|err];
    simpl; [|discriminate].
  intros Hc Hfail. inversion Hc; subst req0. unfold value; simpl.
  unfold answerOf.
  destruct Hfail as [Hdo | (rsp & Hdo & Hbody)].
  - rewrite Hdo. reflexivity.
  - rewrite Hdo, Hbody. reflexivity.
Qed.
End ExecutionPathMore.

(** The test "success with request body": the request as the transport
    sees it. *)
Lemma doJSON_request_shape_witness :
  let v := Stub.validator (Stub.NewTestClient 200 Stub.checkBody) in
  let rb := checkRequest.mk "EE" "123" in
  let run := doJSON (rt := Stub.runtime) (json_Marshal_checkRequest (rt := Stub.runtime))
               (json_Unmarshal_CheckResult (rt := Stub.runtime))
               v Background http_MethodPost "do" (Some rb) CheckResult.zero in
  let req := Request.mk Background "POST" "https://example.com/api/do"
               [("Content-Type", "application/json")]
               (Some (js "{'countryCode':'EE','vatNumber':'123'}")) in
  In req (calls run)
  /\ Request.Url req = "https://example.com/api/do"
  /\ Request.Header req = [("Content-Type", "application/json")].
Proof.
  intros v rb run req.
  assert (Hin : In req (calls run)) by (left; reflexivity).
  split; [exact Hin|].
  destruct (proj2 (doJSON_request_shape (rt := Stub.runtime)
                     (json_Marshal_checkRequest (rt := Stub.runtime))
                     (json_Unmarshal_CheckResult (rt := Stub.runtime))
                     v Background http_MethodPost "do" (Some rb) CheckResult.zero)
              req Hin) as (_ & _ & Hurl & bytes & _ & _ & Hhdr).
  split; [exact Hurl | exact Hhdr].
Defined.

(** The test "request body marshal error": a body that cannot be encoded. *)
Lemma doJSON_sends_nothing_iff_witness :
  let v := Stub.validator (Stub.NewTestClient 200 Stub.checkBody) in
  let e := JSONError (UnsupportedTypeError "json: unsupported type: func()") in
  let marshal := fun _ : unit => failed (A := string) e in
  marshal tt = failed e
  /\ doJSON (rt := Stub.runtime) marshal (json_Unmarshal_CheckResult (rt := Stub.runtime))
       v Background http_MethodPost "do" (Some tt) CheckResult.zero
     = ((CheckResult.zero, Some e), []).
Proof.
  intros v e marshal. split; [reflexivity|].
  exact (proj2 (proj2 (doJSON_sends_nothing_iff (rt := Stub.runtime) marshal
                         (json_Unmarshal_CheckResult (rt := Stub.runtime))
                         v Background http_MethodPost "do" (Some tt) CheckResult.zero))
           tt e eq_refl eq_refl).
Defined.

Lemma doJSON_transport_failure_witness :
  let v := Stub.validator Stub.offline in
  let e := HTTPError "dial tcp: network is unreachable" in
  let run := doJSON (rt := Stub.runtime) json_Marshal_nil
               (json_decode_Status (Runtime := Stub.runtime) (UnmarshalJSON (rt := Stub.runtime)))
               v Background http_MethodGet "ping" None Status.zero in
  let req := Request.mk Background "GET" "https://example.com/api/ping" [] None in
  calls run = [req]
  /\ Client.Do (Validator.client v) req = failed e
  /\ value run = (Status.zero, Some e).
Proof.
  intros v e run req.
  split; [reflexivity|]. split; [reflexivity|].
  exact (doJSON_transport_failure (rt := Stub.runtime) json_Marshal_nil
           (json_decode_Status (Runtime := Stub.runtime) (UnmarshalJSON (rt := Stub.runtime)))
           v Background http_MethodGet "ping" None Status.zero req e
           eq_refl (or_introl eq_refl)).
Defined.

(** ** More on Check, Status and Valid *)

Section OperationsMore.
Context {rt : Runtime}.

Lemma Status_unfold (v : Validator.t) (ctx : Context) :
  Status v ctx =
    match requestOf json_Marshal_nil v ctx http_MethodGet ViesCheckStatusPath None with
    | failed err => ((None, Some err), [])
    | ok req =>
        (match answerOf (json_decode_Status UnmarshalJSON) v Status.zero
                 (Client.Do (Validator.client v) req) with
         | (_, Some err) => (None, Some err)
         | (status, None) => (Some status, None)
         end, [req])
    end.
Proof.
  unfold Status. rewrite doJSON_unfold.
  destruct (requestOf _ _ _ _ _ _) as [req|err]; [|reflexivity].
  unfold bind, ret.
  destruct (answerOf _ _ _ _) as [status [err|]]; reflexivity.
Qed.

(** [Check] returns a result only for an input of at least two bytes whose
    one request was answered with status 200 and a body that decodes; the
    result is the decoded record with [Vat] rebuilt.  Any other status, a
    transport failure or a body that does not decode gives no result. *)
Theorem Check_success_inversion (v : Validator.t) (ctx : Context) (vat : string)
    (r : CheckResult.t) :
  value (Check v ctx vat) = (Some r, None) ->
  2 <= String.length vat
  /\ exists req rsp body decoded,
       calls (Check v ctx vat) = [req]
       /\ Client.Do (Validator.client v) req = ok rsp
       /\ Response.StatusCode rsp = 200%Z
       /\ Response.Body rsp = ok body
       /\ json_Unmarshal_CheckResult body CheckResult.zero = (decoded, None)
       /\ r = CheckResult.set_Vat decoded
                (CheckResult.CountryCode decoded ++ CheckResult.VatNumber decoded).
Proof.
  destruct (Nat.lt_ge_cases (String.length vat) 2) as [Hs|Hl].
  { rewrite (Check_short v ctx vat Hs). discriminate. }
  rewrite (Check_long v ctx vat Hl).
  destruct (requestOf _ _ _ _ _ _) as [req|err]; [|discriminate].
  unfold value, calls; simpl.
  destruct (answerOf _ _ _ _) as [status [err|]] eqn:E; [discriminate|].
  intros H; inversion H; subst r.
  destruct (answerOf_success _ v _ status _ E) as (rsp & body & Hdo & Hcode & Hbody & Hdec).
  split; [exact Hl|].
  exists req, rsp, body, status. repeat split; assumption.
Qed.

(** When a 200 body does not decode, [Check] returns the decoder's error,
    an error of the JSON library, and no result, whatever fields the
    decoder had filled in before it failed. *)
Theorem Check_decode_failure (v : Validator.t) (ctx : Context) (vat : string)
    (req : Request.t) (rsp : Response.t) (body : string)
    (partial : CheckResult.t) (e : GoError) :
  calls (Check v ctx vat) = [req] ->
  Client.Do (Validator.client v) req = ok rsp ->
  Response.StatusCode rsp = 200%Z ->
  Response.Body rsp = ok body ->
  json_Unmarshal_CheckResult body CheckResult.zero = (partial, Some e) ->
  value (Check v ctx vat) = (None, Some e) /\ exists j, e = JSONError j.
Proof.
  intros Hc Hdo Hcode Hbody Hdec.
  destruct (Nat.lt_ge_cases (String.length vat) 2) as [Hs|Hl].
  { rewrite (Check_short v ctx vat Hs) in Hc. discriminate. }
  rewrite (Check_long v ctx vat Hl) in Hc |- *.
  destruct (requestOf _ _ _ _ _ _) as [req'|err]; [|discriminate].
  inversion Hc; subst req'.
  unfold answerOf. rewrite Hdo, Hbody, Hcode, Hdec. simpl.
  split; [reflexivity|].
  unfold json_Unmarshal_CheckResult in Hdec.
  destruct (json_decode_CheckResult body CheckResult.zero) as [r' [j|]];
    inversion Hdec; eauto.
Qed.

(** Two inputs with the same rest whose two-byte ASCII prefixes differ only
    in letter case make [Check] send the same request and return the same
    thing. *)
Theorem Check_prefix_case (v : Validator.t) (ctx : Context) (p q rest : string) :
  String.length p = 2 -> String.length q = 2 ->
  isASCII p = true -> isASCII q = true ->
  equalFoldASCII p q = true ->
  Check v ctx (p ++ rest) = Check v ctx (q ++ rest).
Proof.
  intros Hp Hq Ap Aq Hfold.
  assert (Hlen : forall x, String.length x = 2 -> 2 <= String.length (x ++ rest)).
  { intros [|a [|b x]] Hx; simpl in *; lia. }
  rewrite (Check_long v ctx _ (Hlen p Hp)), (Check_long v ctx _ (Hlen q Hq)).
  assert (Hreq : checkRequestOf (p ++ rest) = checkRequestOf (q ++ rest)).
  { unfold checkRequestOf.
    destruct (slice_app p rest Hp) as [-> ->].
    destruct (slice_app q rest Hq) as [-> ->].
    rewrite (strings_ToUpper_ascii p Ap), (strings_ToUpper_ascii q Aq).
    rewrite (map_upperByte_fold p q Hfold). reflexivity. }
  rewrite Hreq. reflexivity.
Qed.

(** For an input whose first two bytes are ASCII, the country code that
    [Check] encodes has two bytes, none of them a lower-case letter, and is
    the prefix up to letter case. *)
Theorem Check_country_code_upper (v : Validator.t) (ctx : Context) (vat : string) :
  2 <= String.length vat ->
  isASCII (slice vat 0 2) = true ->
  forall req, In req (calls (Check v ctx vat)) ->
    exists cc bytes,
      json_Marshal_checkRequest (checkRequest.mk cc (slice_from vat 2)) = ok bytes
      /\ Request.Body req = Some bytes
      /\ String.length cc = 2
      /\ existsb_string isLowerByte cc = false
      /\ equalFoldASCII cc (slice vat 0 2) = true.
Proof.
  intros Hl Ha req Hin.
  rewrite (Check_long v ctx vat Hl) in Hin.
  destruct (requestOf _ _ _ _ _ _) as [req0|err] eqn:E; simpl in Hin;
    [|contradiction].
  destruct Hin as [<- | []].
  destruct (requestOf_shape _ v ctx _ _ _ req0 E)
    as (_ & _ & _ & bytes & Hm & Hb & _).
  unfold checkRequestOf in Hm.
  rewrite (strings_ToUpper_ascii _ Ha) in Hm.
  exists (map_string upperByte (slice vat 0 2)), bytes.
  repeat split.
  - exact Hm.
  - exact Hb.
  - rewrite map_string_length. exact (proj2 (slice_prefix_rest vat Hl)).
  - apply map_upperByte_no_lower.
  - apply equalFoldASCII_map_upperByte.
Qed.
End OperationsMore.

Lemma Check_success_inversion_witness :
  let v := Stub.validator (Stub.NewTestClient 200 Stub.checkBody) in
  let r := CheckResult.mk "EE" "123" "EE123" true "Acme" in
  value (Check (rt := Stub.runtime) v Background "ee123") = (Some r, None)
  /\ exists req rsp,
       calls (Check (rt := Stub.runtime) v Background "ee123") = [req]
       /\ Client.Do (Validator.client v) req = ok rsp
       /\ Response.StatusCode rsp = 200%Z.
Proof.
  intros v r. split; [reflexivity|].
  destruct (Check_success_inversion (rt := Stub.runtime) v Background "ee123" r eq_refl)
    as (_ & req & rsp & body & decoded & Hc & Hdo & Hcode & _).
  exists req, rsp. split; [exact Hc|]. split; [exact Hdo | exact Hcode].
Defined.

Lemma Check_decode_failure_witness :
  let v := Stub.validator (Stub.NewTestClient 200 "!") in
  let req := Request.mk Background "POST" "https://example.com/api/check-vat-number"
               [("Content-Type", "application/json")]
               (Some (js "{'countryCode':'EE','vatNumber':'123'}")) in
  let rsp := Response.mk 200 (ok "!") in
  let e := JSONError Stub.badJSON in
  calls (Check (rt := Stub.runtime) v Background "EE123") = [req]
  /\ Client.Do (Validator.client v) req = ok rsp
  /\ Response.StatusCode rsp = 200%Z
  /\ Response.Body rsp = ok "!"
  /\ json_Unmarshal_CheckResult (rt := Stub.runtime) "!" CheckResult.zero
     = (CheckResult.zero, Some e)
  /\ value (Check (rt := Stub.runtime) v Background "EE123") = (None, Some e).
Proof.
  intros v req rsp e.
  do 5 (split; [reflexivity|]).
  exact (proj1 (Check_decode_failure (rt := Stub.runtime) v Background "EE123"
                  req rsp "!" CheckResult.zero e
                  eq_refl eq_refl eq_refl eq_refl eq_refl)).
Defined.

Lemma Check_prefix_case_witness :
  let v := Stub.validator (Stub.NewTestClient 200 Stub.checkBody) in
  String.length "ee" = 2 /\ String.length "Ee" = 2
  /\ isASCII "ee" = true /\ isASCII "Ee" = true
  /\ equalFoldASCII "ee" "Ee" = true
  /\ Check (rt := Stub.runtime) v Background "ee123"
     = Check (rt := Stub.runtime) v Background "Ee123".
Proof.
  intros v.
  do 5 (split; [reflexivity|]).
  exact (Check_prefix_case (rt := Stub.runtime) v Background "ee" "Ee" "123"
           eq_refl eq_refl eq_refl eq_refl eq_refl).
Defined.

Lemma Check_country_code_upper_witness :
  let v := Stub.validator (Stub.NewTestClient 200 Stub.checkBody) in
  let req := Request.mk Background "POST" "https://example.com/api/check-vat-number"
               [("Content-Type", "application/json")]
               (Some (js "{'countryCode':'EE','vatNumber':'123'}")) in
  2 <= String.length "eE123"
  /\ isASCII (slice "eE123" 0 2) = true
  /\ In req (calls (Check (rt := Stub.runtime) v Background "eE123"))
  /\ exists cc bytes,
       json_Marshal_checkRequest (rt := Stub.runtime)
         (checkRequest.mk cc (slice_from "eE123" 2)) = ok bytes
       /\ Request.Body req = Some bytes
       /\ String.length cc = 2
       /\ existsb_string isLowerByte cc = false
       /\ equalFoldASCII cc (slice "eE123" 0 2) = true.
Proof.
  intros v req.
  assert (Hl : 2 <= String.length "eE123") by (simpl; lia).
  assert (Hin : In req (calls (Check (rt := Stub.runtime) v Background "eE123")))
    by (left; reflexivity).
  split; [exact Hl|]. split; [reflexivity|]. split; [exact Hin|].
  exact (Check_country_code_upper (rt := Stub.runtime) v Background "eE123"
           Hl eq_refl req Hin).
Defined.

Section StatusAndValidMore.
Context {rt : Runtime}.

(** [Status] hands the transport at most one request: a GET for the
    endpoint joined with "check-status", carrying the caller's context,
    with no body and no header. *)
Theorem Status_request (v : Validator.t) (ctx : Context) :
  length (calls (Status v ctx)) <= 1
  /\ forall req, In req (calls (Status v ctx)) ->
       req = Request.mk ctx "GET"
               (URL_String (URL_JoinPath (Validator.endpoint v) "check-status"))
               [] None.
Proof.
  rewrite Status_unfold.
  destruct (requestOf _ _ _ _ _ _) as [req0|err] eqn:E; simpl.
  - split; [lia|]. intros req [<- | []].
    destruct (requestOf_shape _ v ctx _ _ _ req0 E) as (Hc & Hm & Hu & Hb & Hh).
    destruct req0 as [c m u h b]; simpl in *. subst. reflexivity.
  - split; [lia|]. intros req [].
Qed.

(** [Status] returns a report or an error, never both and never neither;
    it returns a report exactly when its request was answered with status
    200 and a body that decodes, and the report is the decoded one. *)
Theorem Status_success_iff (v : Validator.t) (ctx : Context) :
  ((exists s, value (Status v ctx) = (Some s, None))
   \/ (exists e, value (Status v ctx) = (None, Some e)))
  /\ forall s,
       value (Status v ctx) = (Some s, None) <->
       exists req rsp body,
         calls (Status v ctx) = [req]
         /\ Client.Do (Validator.client v) req = ok rsp
         /\ Response.StatusCode rsp = 200%Z
         /\ Response.Body rsp = ok body
         /\ json_decode_Status UnmarshalJSON body Status.zero = (s, None).
Proof.
  rewrite Status_unfold.
  destruct (requestOf _ _ _ _ _ _) as [req0|err]; unfold value, calls; simpl.
  - destruct (answerOf _ _ _ _) as [status [err|]] eqn:E; simpl.
    + split; [right; eexists; reflexivity|].
      intros s; split; [discriminate|].
      intros (req & rsp & body & Hc & Hdo & Hcode & Hbody & Hdec).
      inversion Hc; subst req.
      unfold answerOf in E. rewrite Hdo, Hbody, Hcode, Hdec in E. discriminate.
    + split; [left; eexists; reflexivity|].
      destruct (answerOf_success _ v _ status _ E)
        as (rsp & body & Hdo & Hcode & Hbody & Hdec).
      intros s; split.
      * intros H; inversion H; subst s.
        exists req0, rsp, body. repeat split; assumption.
      * intros (req & rsp' & body' & Hc & Hdo' & Hcode' & Hbody' & Hdec').
        inversion Hc; subst req.
        rewrite Hdo in Hdo'. inversion Hdo'; subst rsp'.
        rewrite Hbody in Hbody'. inversion Hbody'; subst body'.
        rewrite Hdec in Hdec'. inversion Hdec'; reflexivity.
  - split; [right; eexists; reflexivity|].
    intros s; split; [discriminate|].
    intros (req & rsp & body & Hc & _). discriminate.
Qed.

(** [Status] and [Check] report a failure of the service alike: answered
    with a status other than 200 and the same body, both return no result
    and the one error [doError] makes of that body. *)
Theorem non200_same_error (v : Validator.t) (ctx ctx' : Context) (vat : string)
    (req req' : Request.t) (rsp rsp' : Response.t) (body : string) :
  calls (Status v ctx) = [req] ->
  Client.Do (Validator.client v) req = ok rsp ->
  Response.Body rsp = ok body ->
  Response.StatusCode rsp <> 200%Z ->
  calls (Check v ctx' vat) = [req'] ->
  Client.Do (Validator.client v) req' = ok rsp' ->
  Response.Body rsp' = ok body ->
  Response.StatusCode rsp' <> 200%Z ->
  exists e,
    doError v body = Some e
    /\ value (Status v ctx) = (None, Some e)
    /\ value (Check v ctx' vat) = (None, Some e).
Proof.
  intros Hc Hdo Hbody Hcode Hc' Hdo' Hbody' Hcode'.
  destruct (doError v body) as [e|] eqn:He;
    [|exfalso; exact (doError_not_nil v body He)].
  exists e. split; [reflexivity|].
  apply Z.eqb_neq in Hcode, Hcode'.
  split.
  - rewrite Status_unfold in Hc |- *.
    destruct (requestOf _ _ _ _ _ _) as [r0|err]; [|discriminate].
    inversion Hc; subst r0. unfold value; simpl.
    unfold answerOf. rewrite Hdo, Hbody, Hcode, He. reflexivity.
  - destruct (Nat.lt_ge_cases (String.length vat) 2) as [Hs|Hl].
    { rewrite (Check_short v ctx' vat Hs) in Hc'. discriminate. }
    rewrite (Check_long v ctx' vat Hl) in Hc' |- *.
    destruct (requestOf _ _ _ _ _ _) as [r0|err]; [|discriminate].
    inversion Hc'; subst r0. unfold value; simpl.
    unfold answerOf. rewrite Hdo', Hbody', Hcode', He. reflexivity.
Qed.

(** [Valid] answers true only when its one request was answered with
    status 200 and a body that decodes to a record whose [valid] flag is
    set; the error is then nil. *)
Theorem Valid_true_sound (v : Validator.t) (ctx : Context) (vat : string) (e : error) :
  value (Valid v ctx vat) = Returns (true, e) ->
  e = None
  /\ exists req rsp body decoded,
       calls (Valid v ctx vat) = [req]
       /\ Client.Do (Validator.client v) req = ok rsp
       /\ Response.StatusCode rsp = 200%Z
       /\ Response.Body rsp = ok body
       /\ json_Unmarshal_CheckResult body CheckResult.zero = (decoded, None)
       /\ CheckResult.Valid decoded = true.
Proof.
  rewrite Valid_value, Valid_calls.
  destruct (Nat.lt_ge_cases (String.length vat) 2) as [Hs|Hl].
  { rewrite (Check_short v ctx vat Hs). discriminate. }
  rewrite (Check_long v ctx vat Hl).
  destruct (requestOf _ _ _ _ _ _) as [req|err]; [|discriminate].
  unfold value, calls; simpl.
  destruct (answerOf _ _ _ _) as [status [err|]] eqn:E; [discriminate|].
  intros H; inversion H as [[Hvalid He]].
  destruct (answerOf_success _ v _ status _ E)
    as (rsp & body & Hdo & Hcode & Hbody & Hdec).
  split; [reflexivity|].
  exists req, rsp, body, status. repeat split; assumption.
Qed.

(** On an input shorter than two bytes [Valid] returns false with the
    format error of [Check], and nothing is handed to the transport. *)
Theorem Valid_short_input (v : Validator.t) (ctx : Context) (vat : string) :
  String.length vat < 2 ->
  Valid v ctx vat
  = (Returns (false, Some (errorString ("invalid VAT provided " ++ vat))), []).
Proof.
  intros H. unfold Valid. rewrite (Check_short v ctx vat H). reflexivity.
Qed.

(** A Validator built by [NewValidator] sends the requests of [Check] and
    [Status] to the parsed endpoint, the default one for an empty string,
    joined with the operation's path. *)
Theorem NewValidator_then_requests (client : option Client.t) (endpoint : string)
    (v : Validator.t) :
  NewValidator client endpoint = (Some v, None) ->
  url_Parse (if String.eqb endpoint EmptyString then ViesEndpointUrl else endpoint)
    = ok (Validator.endpoint v)
  /\ (forall ctx vat req, In req (calls (Check v ctx vat)) ->
        Request.Url req
        = URL_String (URL_JoinPath (Validator.endpoint v) "check-vat-number"))
  /\ (forall ctx req, In req (calls (Status v ctx)) ->
        Request.Url req
        = URL_String (URL_JoinPath (Validator.endpoint v) "check-status")).
Proof.
  unfold NewValidator.
  destruct (url_Parse _) as [u|err] eqn:Hp; [|discriminate].
  intros H; inversion H; subst v; simpl.
  split; [reflexivity|]. split.
  - intros ctx vat req Hin.
    destruct (Nat.lt_ge_cases (String.length vat) 2) as [Hs|Hl].
    { rewrite (Check_short _ ctx vat Hs) in Hin. contradiction. }
    rewrite (Check_long _ ctx vat Hl) in Hin.
    destruct (requestOf _ _ _ _ _ _) as [req0|e] eqn:E; simpl in Hin;
      [|contradiction].
    destruct Hin as [<- | []].
    exact (proj1 (proj2 (proj2 (requestOf_shape _ _ ctx _ _ _ req0 E)))).
  - intros ctx req Hin.
    rewrite Status_unfold in Hin.
    destruct (requestOf _ _ _ _ _ _) as [req0|e] eqn:E; simpl in Hin;
      [|contradiction].
    destruct Hin as [<- | []].
    exact (proj1 (proj2 (proj2 (requestOf_shape _ _ ctx _ _ _ req0 E)))).
Qed.
End StatusAndValidMore.

Lemma Status_request_witness :
  let v := Stub.validator (Stub.NewTestClient 200 Stub.statusBody) in
  let req := Request.mk Background "GET" "https://example.com/api/check-status" [] None in
  In req (calls (Status (rt := Stub.runtime) v Background))
  /\ req = Request.mk Background "GET"
             (URL_String (Runtime := Stub.runtime)
                (URL_JoinPath (Runtime := Stub.runtime) (Validator.endpoint v) "check-status"))
             [] None.
Proof.
  intros v req.
  assert (Hin : In req (calls (Status (rt := Stub.runtime) v Background)))
    by (left; reflexivity).
  split; [exact Hin|].
  exact (proj2 (Status_request (rt := Stub.runtime) v Background) req Hin).
Defined.

(** The test "valid response" of [Status]. *)
Lemma Status_success_iff_witness :
  let v := Stub.validator (Stub.NewTestClient 200 Stub.statusBody) in
  let s := Status.mk (StatusVow.mk true) [CountryStatus.mk "EE" AvailabilityAvailable] in
  value (Status (rt := Stub.runtime) v Background) = (Some s, None)
  /\ exists req rsp body,
       calls (Status (rt := Stub.runtime) v Background) = [req]
       /\ Client.Do (Validator.client v) req = ok rsp
       /\ Response.StatusCode rsp = 200%Z
       /\ Response.Body rsp = ok body
       /\ json_decode_Status (Runtime := Stub.runtime) (UnmarshalJSON (rt := Stub.runtime))
            body Status.zero = (s, None).
Proof.
  intros v s. split; [reflexivity|].
  exact (proj1 (proj2 (Status_success_iff (rt := Stub.runtime) v Background) s)
           eq_refl).
Defined.

Lemma non200_same_error_witness :
  let v := Stub.validator (Stub.NewTestClient 400 Stub.errBody) in
  let req := Request.mk Background "GET" "https://example.com/api/check-status" [] None in
  let req' := Request.mk Background "POST" "https://example.com/api/check-vat-number"
                [("Content-Type", "application/json")]
                (Some (js "{'countryCode':'EE','vatNumber':'123'}")) in
  let rsp := Response.mk 400 (ok Stub.errBody) in
  calls (Status (rt := Stub.runtime) v Background) = [req]
  /\ calls (Check (rt := Stub.runtime) v Background "EE123") = [req']
  /\ Client.Do (Validator.client v) req = ok rsp
  /\ Client.Do (Validator.client v) req' = ok rsp
  /\ Response.StatusCode rsp <> 200%Z
  /\ exists e,
       doError (rt := Stub.runtime) v Stub.errBody = Some e
       /\ value (Status (rt := Stub.runtime) v Background) = (None, Some e)
       /\ value (Check (rt := Stub.runtime) v Background "EE123") = (None, Some e).
Proof.
  intros v req req' rsp.
  assert (Hcode : Response.StatusCode rsp <> 200%Z) by discriminate.
  do 4 (split; [reflexivity|]). split; [exact Hcode|].
  exact (non200_same_error (rt := Stub.runtime) v Background Background "EE123"
           req req' rsp rsp Stub.errBody
           eq_refl eq_refl eq_refl Hcode eq_refl eq_refl eq_refl Hcode).
Defined.

(** The test "true when check valid". *)
Lemma Valid_true_sound_witness :
  let v := Stub.validator (Stub.NewTestClient 200 Stub.checkBody) in
  value (Valid (rt := Stub.runtime) v Background "EE123") = Returns (true, None)
  /\ exists req rsp body decoded,
       calls (Valid (rt := Stub.runtime) v Background "EE123") = [req]
       /\ Client.Do (Validator.client v) req = ok rsp
       /\ Response.StatusCode rsp = 200%Z
       /\ Response.Body rsp = ok body
       /\ json_Unmarshal_CheckResult (rt := Stub.runtime) body CheckResult.zero
          = (decoded, None)
       /\ CheckResult.Valid decoded = true.
Proof.
  intros v. split; [reflexivity|].
  exact (proj2 (Valid_true_sound (rt := Stub.runtime) v Background "EE123" None eq_refl)).
Defined.

(** The test "returns error from check". *)
Lemma Valid_short_input_witness :
  String.length "E" < 2
  /\ Valid (rt := Stub.runtime)
       (Stub.validator (Stub.NewTestClient 200 Stub.checkBody)) Background "E"
     = (Returns (false, Some (errorString "invalid VAT provided E")), []).
Proof.
  assert (H : String.length "E" < 2) by (simpl; lia).
  split; [exact H|].
  exact (Valid_short_input (rt := Stub.runtime)
           (Stub.validator (Stub.NewTestClient 200 Stub.checkBody)) Background "E" H).
Defined.

Lemma NewValidator_then_requests_witness :
  let c := Stub.NewTestClient 200 Stub.statusBody in
  let v := Stub.validator c in
  NewValidator (rt := Stub.runtime) (Some c) Stub.exampleEndpoint = (Some v, None)
  /\ forall req, In req (calls (Status (rt := Stub.runtime) v Background)) ->
       Request.Url req = "https://example.com/api/check-status".
Proof.
  intros c v. split; [reflexivity|].
  intros req Hin.
  exact (proj2 (proj2 (NewValidator_then_requests (rt := Stub.runtime)
                         (Some c) Stub.exampleEndpoint v eq_refl))
           Background req Hin).
Defined.

(* ================================================================== *)
(** * Characters and bytes in Check *)

(** The runs of [Check] on a one-character input and on a three-character
    input, each starting with e-acute: the guard and the cut count bytes. *)
Example Check_e_acute_runs :
  let v := Stub.validator (Stub.NewTestClient 200 Stub.checkBody) in
  let request body :=
    Request.mk Background "POST" "https://example.com/api/check-vat-number"
      [("Content-Type", "application/json")] (Some body) in
  countCharacters e_acute = 1
  /\ String.length e_acute = 2
  /\ calls (Check (rt := Latin1.runtime) v Background e_acute)
     = [request (js "{'countryCode':'" ++ E_acute ++ js "','vatNumber':''}")%string]
  /\ countCharacters (e_acute ++ "a1") = 3
  /\ splitCharacters 2 (e_acute ++ "a1") = ((e_acute ++ "a")%string, "1")
  /\ calls (Check (rt := Latin1.runtime) v Background (e_acute ++ "a1"))
     = [request (js "{'countryCode':'" ++ E_acute ++ js "','vatNumber':'a1'}")%string].
Proof. repeat split. Qed.

(** C2, as stated, fails on the input e-acute: it is one character, two
    bytes long, and [Check] sends a request for it. *)
Lemma Check_sends_for_one_character :
  ~ refusedBelowTwoCharacters (rt := Latin1.runtime)
      (Stub.validator (Stub.NewTestClient 200 Stub.checkBody)) Background e_acute.
Proof.
  unfold refusedBelowTwoCharacters. intros Hclaim.
  assert (Hone : countCharacters e_acute < 2) by (simpl; lia).
  destruct (Hclaim Hone) as [_ Hcalls].
  discriminate Hcalls.
Qed.

(** C3, as stated, fails on the input e-acute, a, 1: its first two
    characters are e-acute and a, but [Check] sends the country code
    E-acute and the VAT number a1. *)
Lemma Check_cuts_inside_two_characters :
  ~ sendsCharacterSplit (rt := Latin1.runtime)
      (Stub.validator (Stub.NewTestClient 200 Stub.checkBody)) Background
      (e_acute ++ "a1").
Proof.
  unfold sendsCharacterSplit. intros Hclaim.
  assert (Hthree : 2 <= countCharacters (e_acute ++ "a1")) by (simpl; lia).
  destruct (Hclaim Hthree _ (or_introl eq_refl)) as (bytes & Henc & Hbody).
  vm_compute in Henc, Hbody.
  inversion Henc; subst bytes. discriminate Hbody.
Qed.
